(** * bilibili_api.ass: ASS export orchestration

    A shallow embedding of [bilibili_api/ass.py].  The module is a thin
    layer of orchestration: it asks a video object for its metadata and
    its danmaku or subtitles, writes them to a file in the temporary
    directory and hands that file to one of three converters
    ([Danmaku2ASS], [json2srt], [srt2ass]).

    The embedding is a state-and-exception monad over a world made of a
    file system and a log of the calls that leave the module. *)

From Stdlib Require Import ZArith String Ascii List Bool.
From stdpp Require Import base option gmap strings list.

Local Open Scope string_scope.
Local Open Scope list_scope.

(** ** Python values that the module only forwards *)

(** A Python number.  The module never computes with the font size, the
    opacity or the durations; it forwards them.  A float is kept as the
    pair mantissa, binary exponent. *)
Inductive number :=
| PyInt (z : Z)
| PyFloat (mantissa exponent : Z).

(** [datetime.date] *)
Record Date := { year : Z; month : Z; day : Z }.

(** A Python exception: its class and its message. *)
Record exn := { exn_class : string; exn_msg : string }.

Definition ValueError (msg : string) : exn :=
  {| exn_class := "ValueError"; exn_msg := msg |}.
Definition ArgsException (msg : string) : exn :=
  {| exn_class := "ArgsException"; exn_msg := msg |}.
Definition FileNotFoundError (p : string) : exn :=
  {| exn_class := "FileNotFoundError"; exn_msg := p |}.
Definition AttributeError (msg : string) : exn :=
  {| exn_class := "AttributeError"; exn_msg := msg |}.

(** ** [str.replace] and [in] on strings *)

(** [replace_from old new skip s] scans [s] from the left.  [skip] counts
    the characters of an occurrence of [old] that has just been replaced
    and that are still to be passed over, so occurrences never overlap. *)
Fixpoint replace_from (old new : string) (skip : nat) (s : string) : string :=
  match s with
  | EmptyString => EmptyString
  | String c s' =>
      match skip with
      | S k => replace_from old new k s'
      | O =>
          if String.prefix old s
          then new +:+ replace_from old new (String.length old - 1) s'
          else String c (replace_from old new 0 s')
      end
  end.

(** [s.replace(old, new)] for a non-empty [old]. *)
Definition replace (old new s : string) : string := replace_from old new 0 s.

(** [sub in s] *)
Fixpoint contains (sub s : string) : bool :=
  String.prefix sub s
  || match s with
     | EmptyString => false
     | String _ s' => contains sub s'
     end.

(** ** Arguments of the converters *)

(** The keyword arguments of [Danmaku2ASS]. *)
Record D2AArgs := {
  input_files : string;
  input_format : string;
  output_file : string;
  stage_width : Z;
  stage_height : Z;
  reserve_blank : Z;
  font_face : string;
  font_size : number;
  text_opacity : number;
  duration_marquee : number;
  duration_still : number;
}.

(** ** The world: files and the calls that leave the module *)

Inductive Event :=
| EvRaiseForNoSessdata
| EvGetPageId (page : Z)
| EvGetInfo
| EvGetDanmakus (cid : option Z) (date : option Date)
| EvGetDanmakuXml (cid : option Z)
| EvRequest (method url : string)
| EvOpenW (p : string)
| EvJson2srt (doc out : string)
| EvSrt2ass (input_file out_file sub_style : string)
| EvDanmaku2ASS (a : D2AArgs)
| EvRemove (p : string).

Record World := {
  fs : gmap string string;
  log : list Event;
}.

Inductive Result (A : Type) :=
| Ok (a : A)
| Raise (e : exn).
Arguments Ok {A} a.
Arguments Raise {A} e.

(** A computation reads and changes the world and returns or raises.  The
    changes made before a [raise] stay. *)
Definition M (A : Type) : Type := World → Result A * World.

#[global] Instance M_ret : MRet M := λ A a w, (Ok a, w).
#[global] Instance M_bind : MBind M := λ A B f m w,
  match m w with
  | (Ok a, w') => f a w'
  | (Raise e, w') => (Raise e, w')
  end.

Definition raise {A} (e : exn) : M A := λ w, (Raise e, w).

(** [try: m except: h] with a bare [except], which catches everything. *)
Definition try_except {A} (m : M A) (h : exn → M A) : M A := λ w,
  match m w with
  | (Ok a, w') => (Ok a, w')
  | (Raise e, w') => h e w'
  end.

Definition emit (ev : Event) : M unit := λ w,
  (Ok tt, {| fs := fs w; log := log w ++ [ev] |}).

(** What a callee returns or raises, returned or raised here. *)
Definition lift {A} (r : Result A) : M A := λ w, (r, w).

Definition set_fs (f : gmap string string → gmap string string) : M unit := λ w,
  (Ok tt, {| fs := f (fs w); log := log w |}).

(** A call that leaves the module: it is logged, then returns or raises
    what the callee returns or raises. *)
Definition call {A} (ev : Event) (r : Result A) : M A :=
  emit ev;; lift r.

(** [for x in l: body(x)] *)
Fixpoint for_each {A} (l : list A) (body : A → M unit) : M unit :=
  match l with
  | [] => mret tt
  | x :: l' => body x;; for_each l' body
  end.

(** [open(p, "w")]: the file is created or truncated.  The directory is
    taken to exist and to be writable. *)
Definition open_w (p : string) : M unit :=
  emit (EvOpenW p);; set_fs (insert p "").

(** [file.write(s)] on a file opened at [p]. *)
Definition file_write (p s : string) : M unit :=
  set_fs (λ m, <[p := default "" (m !! p) +:+ s]> m).

(** Reading a whole file; a missing file raises. *)
Definition read_file (p : string) : M string := λ w,
  match fs w !! p with
  | Some c => (Ok c, w)
  | None => (Raise (FileNotFoundError p), w)
  end.

(** [os.remove(p)] *)
Definition os_remove (p : string) : M unit :=
  emit (EvRemove p);;
  read_file p;;
  set_fs (delete p).

(** What a converter does when it writes its output file: the file is
    replaced as a whole. *)
Definition write_whole (p c : string) : M unit := set_fs (insert p c).

(** ** The objects the module is called with *)

(** An entry of [info["subtitle"]["list"]]. *)
Record SubtitleEntry := { lan_doc : string; subtitle_url : string }.

(** The part of the dictionary returned by [get_info] that the module
    reads: [info["dimension"]["width"]], [info["dimension"]["height"]] and
    [info["subtitle"]["list"]]. *)
Record Info := {
  dimension_width : Z;
  dimension_height : Z;
  subtitle_list : list SubtitleEntry;
}.

Record Danmaku := { to_xml : string }.

Record Credential := { raise_for_no_sessdata : Result unit }.

(** A [Video]; an [Episode] is a [Video] too ([isinstance(obj, Video)]
    holds for both).  Each method is given by what its call returns or
    raises. *)
Record Video := {
  is_episode : bool;
  get_info : Result Info;
  get_page_id_by_index : Z → Result Z;
  get_danmakus : option Z → option Date → Result (list Danmaku);
  get_danmaku_xml : option Z → Result string;
}.

Record CheeseVideo := {
  cheese_get_danmakus : Result (list Danmaku);
  cheese_get_danmaku_xml : Result string;
}.

(** [Union[Video, Episode, CheeseVideo]] *)
Inductive Obj :=
| OVideo (v : Video)
| OCheese (c : CheeseVideo).

(** ** What the module imports *)

(** The functions and the constant that [ass.py] imports and whose code is
    in other files of the repository or in other packages.  The three
    converters are given by the text they compute. *)
Record Collaborators := {
  gettempdir : string;
  request : string → string → Result string;
  json2srt_text : string → Result string;
  srt2ass_text : string → string → Result string;
  danmaku2ass_text : D2AArgs → string → Result string;
}.

Section Ass.

Context (E : Collaborators).

(** *** The converters, on files *)

(** Modelled from the spec: [Danmaku2ASS] of [utils/danmaku2ass.py], which
    is not among the sources.  It reads the comment file, lays the comments
    out and emits the ASS text; the output is written as a complete file
    with overwrite semantics.  The text is [danmaku2ass_text]. *)
Definition Danmaku2ASS (a : D2AArgs) : M unit :=
  emit (EvDanmaku2ASS a);;
  xml ← read_file (input_files a);
  ass ← lift (danmaku2ass_text E a xml);
  write_whole (output_file a) ass.

(** Modelled from the spec: [json2srt] of [utils/json2srt.py], which is not
    among the sources.  It converts the captioning JSON structure of one
    file into the subtitle-exchange format, written to another file.  The
    text is [json2srt_text]. *)
Definition json2srt (doc out : string) : M unit :=
  emit (EvJson2srt doc out);;
  json ← read_file doc;
  srt ← lift (json2srt_text E json);
  write_whole out srt.

(** Modelled from the spec: [srt2ass] of [utils/srt2ass.py], which is not
    among the sources.  It reformats the subtitle-exchange file into the
    header, style and event structure of ASS, written to another file.  The
    text is [srt2ass_text]. *)
Definition srt2ass (input_file out_file sub_style : string) : M unit :=
  emit (EvSrt2ass input_file out_file sub_style);;
  srt ← read_file input_file;
  ass ← lift (srt2ass_text E sub_style srt);
  write_whole out_file ass.

(** *** [ass.py] *)

(** The keyword arguments that [export_ass_from_xml] passes to
    [Danmaku2ASS]. *)
Definition export_args
    (file_local output_local : string) (stage_size : Z * Z)
    (font_name : string) (font_size alpha fly_time static_time : number)
    : D2AArgs :=
  {| input_files := file_local;
     input_format := "Bilibili";
     output_file := output_local;
     stage_width := fst stage_size;
     stage_height := snd stage_size;
     reserve_blank := 0;
     font_face := font_name;
     font_size := font_size;
     text_opacity := alpha;
     duration_marquee := fly_time;
     duration_still := static_time |}.

Definition export_ass_from_xml
    (file_local output_local : string) (stage_size : Z * Z)
    (font_name : string) (font_size alpha fly_time static_time : number)
    : M unit :=
  Danmaku2ASS
    (export_args file_local output_local stage_size
       font_name font_size alpha fly_time static_time).

Definition export_ass_from_srt (file_local output_local : string) : M unit :=
  srt2ass file_local output_local "movie".

Definition export_ass_from_json (file_local output_local : string) : M unit :=
  json2srt file_local (replace ".ass" ".srt" output_local);;
  srt2ass (replace ".ass" ".srt" output_local) output_local "movie";;
  os_remove (replace ".ass" ".srt" output_local).

(** The [for subtitle in json_files] loop of [make_ass_file_subtitle] with
    the [raise] that follows it: the loop is left by [return] at the first
    entry whose [lan_doc] is [name]. *)
Fixpoint subtitle_loop (json_files : list SubtitleEntry) (out name : string)
    : M unit :=
  match json_files with
  | [] => raise (ValueError "没有找到指定字幕")
  | subtitle :: rest =>
      if String.eqb (lan_doc subtitle) name then
        let url := subtitle_url subtitle in
        req ← call (EvRequest "GET" url) (request E "GET" url);
        let file_dir := gettempdir E +:+ "/" +:+ "subtitle.json" in
        open_w file_dir;;
        file_write file_dir req;;
        export_ass_from_json file_dir out
      else subtitle_loop rest out name
  end.

Definition make_ass_file_subtitle
    (obj : Video) (out name : string) (credential : option Credential)
    : M unit :=
  info ← call EvGetInfo (get_info obj);
  let json_files := subtitle_list info in
  subtitle_loop json_files out name.

(** [{"dimension": {"width": 1440, "height": 1080}}] *)
Definition fallback_info : Info :=
  {| dimension_width := 1440; dimension_height := 1080; subtitle_list := [] |}.

(** [if date: credential.raise_for_no_sessdata()]; a [date] is true when it
    is not [None], and [None] has no method. *)
Definition check_credential (credential : option Credential)
    (date : option Date) : M unit :=
  match date with
  | Some _ =>
      match credential with
      | Some c => call EvRaiseForNoSessdata (raise_for_no_sessdata c)
      | None =>
          raise (AttributeError
            "'NoneType' object has no attribute 'raise_for_no_sessdata'")
      end
  | None => mret tt
  end.

(** The choice of [cid] in the [isinstance(obj, Video)] branch. *)
Definition resolve_cid (v : Video) (page cid : option Z) : M (option Z) :=
  if is_episode v then mret (Some 0%Z)
  else
    match cid with
    | None =>
        match page with
        | None => raise (ArgsException "page_index 和 cid 至少提供一个。")
        | Some p =>
            c ← call (EvGetPageId p) (get_page_id_by_index v p);
            mret (Some c)
        end
    | Some c => mret (Some c)
    end.

(** [try: info = await v.get_info() / except: info = {...}] and the stage
    size read from it. *)
Definition video_stage_size (v : Video) : M (Z * Z) :=
  info ← try_except (call EvGetInfo (get_info v)) (λ _, mret fallback_info);
  let width := dimension_width info in
  let height := dimension_height info in
  mret (width, height).

Definition danmaku_temp : string := gettempdir E +:+ "/danmaku_temp.xml".

Definition make_ass_file_danmakus_protobuf
    (obj : Obj) (page : option Z) (out : string) (cid : option Z)
    (credential : option Credential) (date : option Date)
    (font_name : string) (font_size alpha fly_time static_time : number)
    : M unit :=
  check_credential credential date;;
  '(stage_size, danmakus) ←
    match obj with
    | OVideo v =>
        cid ← resolve_cid v page cid;
        stage_size ← video_stage_size v;
        danmakus ←
          (if is_episode v
           then call (EvGetDanmakus None None) (get_danmakus v None None)
           else call (EvGetDanmakus cid date) (get_danmakus v cid date));
        mret (stage_size, danmakus)
    | OCheese c =>
        let stage_size := (1440, 1080)%Z in
        danmakus ← call (EvGetDanmakus None None) (cheese_get_danmakus c);
        mret (stage_size, danmakus)
    end;
  open_w danmaku_temp;;
  file_write danmaku_temp "<i>";;
  for_each danmakus (λ d, file_write danmaku_temp (to_xml d));;
  file_write danmaku_temp "</i>";;
  export_ass_from_xml danmaku_temp out stage_size
    font_name font_size alpha fly_time static_time.

Definition make_ass_file_danmakus_xml
    (obj : Obj) (page : option Z) (out : string) (cid : option Z)
    (font_name : string) (font_size alpha fly_time static_time : number)
    : M unit :=
  '(stage_size, xml_content) ←
    match obj with
    | OVideo v =>
        cid ← resolve_cid v page cid;
        stage_size ← video_stage_size v;
        xml_content ←
          (if is_episode v
           then call (EvGetDanmakuXml None) (get_danmaku_xml v None)
           else call (EvGetDanmakuXml cid) (get_danmaku_xml v cid));
        mret (stage_size, xml_content)
    | OCheese c =>
        let stage_size := (1440, 1080)%Z in
        xml_content ← call (EvGetDanmakuXml None) (cheese_get_danmaku_xml c);
        mret (stage_size, xml_content)
    end;
  open_w danmaku_temp;;
  file_write danmaku_temp xml_content;;
  export_ass_from_xml danmaku_temp out stage_size
    font_name font_size alpha fly_time static_time.

End Ass.

(** ** Notions used in the statements *)

(** The world after some more calls. *)
Definition logged (w : World) (evs : list Event) : World :=
  {| fs := fs w; log := log w ++ evs |}.

(** Every call that the computation adds to the log satisfies [P]. *)
Definition logs_only {A} (P : Event → Prop) (m : M A) : Prop :=
  ∀ w, ∃ evs, log (m w).2 = log w ++ evs ∧ Forall P evs.

(** The text that [make_ass_file_danmakus_protobuf] writes to the temporary
    file for a list of danmaku. *)
Definition danmakus_xml (danmakus : list Danmaku) : string :=
  "<i>" +:+ foldr (λ d rest, to_xml d +:+ rest) "</i>" danmakus.

(** The last statements of [make_ass_file_danmakus_xml], which both
    branches reach: the temporary file is written, then converted. *)
Definition xml_tail (E : Collaborators) (xml_content out : string)
    (stage_size : Z * Z) (font_name : string)
    (font_size alpha fly_time static_time : number) : M unit :=
  open_w (danmaku_temp E);;
  file_write (danmaku_temp E) xml_content;;
  export_ass_from_xml E (danmaku_temp E) out stage_size
    font_name font_size alpha fly_time static_time.

(** The last statements of [make_ass_file_danmakus_protobuf]. *)
Definition protobuf_tail (E : Collaborators) (danmakus : list Danmaku)
    (out : string) (stage_size : Z * Z) (font_name : string)
    (font_size alpha fly_time static_time : number) : M unit :=
  open_w (danmaku_temp E);;
  file_write (danmaku_temp E) "<i>";;
  for_each danmakus (λ d, file_write (danmaku_temp E) (to_xml d));;
  file_write (danmaku_temp E) "</i>";;
  export_ass_from_xml E (danmaku_temp E) out stage_size
    font_name font_size alpha fly_time static_time.

(** The stage size that the [isinstance(obj, Video)] branch computes. *)
Definition video_size (v : Video) : Z * Z :=
  match get_info v with
  | Ok info => (dimension_width info, dimension_height info)
  | Raise _ => (1440, 1080)%Z
  end.

(** The temporary file of [make_ass_file_subtitle]. *)
Definition subtitle_temp (E : Collaborators) : string :=
  gettempdir E +:+ "/" +:+ "subtitle.json".

(** The error that ends [make_ass_file_subtitle] when the loop is left
    without a [return]. *)
Definition lookup_error : exn := ValueError "没有找到指定字幕".

(** The body of the [if] in the loop of [make_ass_file_subtitle], for the
    entry [subtitle]. *)
Definition download_and_convert (E : Collaborators)
    (subtitle : SubtitleEntry) (out : string) : M unit :=
  req ← call (EvRequest "GET" (subtitle_url subtitle))
             (request E "GET" (subtitle_url subtitle));
  open_w (subtitle_temp E);;
  file_write (subtitle_temp E) req;;
  export_ass_from_json E (subtitle_temp E) out.

(** The stage size that a danmaku function passes on. *)
Definition stage_size_of (obj : Obj) : Z * Z :=
  match obj with
  | OVideo v => video_size v
  | OCheese _ => (1440, 1080)%Z
  end.

(** The calls that a danmaku function can make for [obj]. *)
Inductive danmaku_event (E : Collaborators) (obj : Obj) (out : string)
    (fn : string) (fsz al ft st : number) : Event → Prop :=
| de_sessdata : danmaku_event E obj out fn fsz al ft st EvRaiseForNoSessdata
| de_page_id v p :
    obj = OVideo v → danmaku_event E obj out fn fsz al ft st (EvGetPageId p)
| de_info v :
    obj = OVideo v → danmaku_event E obj out fn fsz al ft st EvGetInfo
| de_danmakus c d :
    danmaku_event E obj out fn fsz al ft st (EvGetDanmakus c d)
| de_danmaku_xml c :
    danmaku_event E obj out fn fsz al ft st (EvGetDanmakuXml c)
| de_open :
    danmaku_event E obj out fn fsz al ft st (EvOpenW (danmaku_temp E))
| de_convert :
    danmaku_event E obj out fn fsz al ft st
      (EvDanmaku2ASS
         (export_args (danmaku_temp E) out (stage_size_of obj) fn fsz al ft st)).

(** The same video with another outcome of [get_info]. *)
Definition with_info (v : Video) (r : Result Info) : Video :=
  {| is_episode := is_episode v;
     get_info := r;
     get_page_id_by_index := get_page_id_by_index v;
     get_danmakus := get_danmakus v;
     get_danmaku_xml := get_danmaku_xml v |}.



(** Whether a logged call is an HTTP request. *)
Definition is_request (ev : Event) : bool :=
  match ev with
  | EvRequest _ _ => true
  | _ => false
  end.

(** The XML text of a list of danmaku, when the list could be retrieved. *)
Definition wrap_result (r : Result (list Danmaku)) : Result string :=
  match r with
  | Ok danmakus => Ok (danmakus_xml danmakus)
  | Raise e => Raise e
  end.

(** The object answers [get_danmaku_xml] with the XML text of what it
    answers [get_danmakus] without a date. *)
Definition same_comments (obj : Obj) : Prop :=
  match obj with
  | OVideo v => ∀ cid, get_danmaku_xml v cid = wrap_result (get_danmakus v cid None)
  | OCheese c => cheese_get_danmaku_xml c = wrap_result (cheese_get_danmakus c)
  end.

(** [x] is an answer of the object to [get_danmaku_xml]. *)
Definition xml_of (obj : Obj) (x : string) : Prop :=
  match obj with
  | OVideo v => ∃ cid, get_danmaku_xml v cid = Ok x
  | OCheese c => cheese_get_danmaku_xml c = Ok x
  end.

(** [danmakus] is an answer of the object to [get_danmakus]. *)
Definition danmakus_of (obj : Obj) (danmakus : list Danmaku) : Prop :=
  match obj with
  | OVideo v => ∃ cid date, get_danmakus v cid date = Ok danmakus
  | OCheese c => cheese_get_danmakus c = Ok danmakus
  end.

(** ** Sample inputs *)

(** Collaborators that always succeed. *)
Definition sample_collaborators : Collaborators :=
  {| gettempdir := "/tmp";
     request := λ _ url, Ok ("{body: [hello]} from " +:+ url);
     json2srt_text := λ json, Ok ("1 00:00:00,000 --> 00:00:02,000 " +:+ json);
     srt2ass_text := λ style srt, Ok ("[Script Info] " +:+ style +:+ " " +:+ srt);
     danmaku2ass_text := λ a xml, Ok ("[Script Info] " +:+ xml) |}.

(** The same, without a network. *)
Definition offline_collaborators : Collaborators :=
  {| gettempdir := "/tmp";
     request := λ _ url,
       Raise {| exn_class := "ConnectError"; exn_msg := "All connection attempts failed" |};
     json2srt_text := json2srt_text sample_collaborators;
     srt2ass_text := srt2ass_text sample_collaborators;
     danmaku2ass_text := danmaku2ass_text sample_collaborators |}.

Definition sample_info : Info :=
  {| dimension_width := 1920;
     dimension_height := 1080;
     subtitle_list :=
       [ {| lan_doc := "English"; subtitle_url := "https://example.org/en.json" |};
         {| lan_doc := "中文（自动生成）"; subtitle_url := "https://example.org/zh.json" |};
         {| lan_doc := "English"; subtitle_url := "https://example.org/en2.json" |} ] |}.

Definition sample_video : Video :=
  {| is_episode := false;
     get_info := Ok sample_info;
     get_page_id_by_index := λ page, Ok (1000 + page)%Z;
     get_danmakus := λ _ _, Ok [ {| to_xml := "<d>first</d>" |}; {| to_xml := "<d>second</d>" |} ];
     get_danmaku_xml := λ _, Ok "<i><d>first</d><d>second</d></i>" |}.

Definition sample_cheese : CheeseVideo :=
  {| cheese_get_danmakus := Ok [ {| to_xml := "<d>lesson</d>" |} ];
     cheese_get_danmaku_xml := Ok "<i><d>lesson</d></i>" |}.

(** A credential without SESSDATA. *)
Definition anonymous_credential : Credential :=
  {| raise_for_no_sessdata :=
       Raise {| exn_class := "CredentialNoSessdataException"; exn_msg := "" |} |}.

(** The sample video when its metadata cannot be retrieved. *)
Definition video_without_info : Video :=
  with_info sample_video
    (Raise {| exn_class := "TimeoutError"; exn_msg := "" |}).

(** Collaborators whose SRT-to-ASS conversion fails. *)
Definition failing_srt2ass_collaborators : Collaborators :=
  {| gettempdir := "/tmp";
     request := request sample_collaborators;
     json2srt_text := json2srt_text sample_collaborators;
     srt2ass_text := λ _ _,
       Raise {| exn_class := "UnicodeDecodeError"; exn_msg := "" |};
     danmaku2ass_text := danmaku2ass_text sample_collaborators |}.

(** The sample video when its metadata give the dimensions 0 by -1. *)
Definition degenerate_video : Video :=
  with_info sample_video
    (Ok {| dimension_width := 0; dimension_height := -1; subtitle_list := [] |}).

(** An episode: the sample video as an [Episode], without pages. *)
Definition sample_episode : Video :=
  {| is_episode := true;
     get_info := Ok sample_info;
     get_page_id_by_index := λ _,
       Raise {| exn_class := "ArgsException"; exn_msg := "no pages" |};
     get_danmakus := get_danmakus sample_video;
     get_danmaku_xml := get_danmaku_xml sample_video |}.

(** The sample video when its danmaku cannot be retrieved. *)
Definition video_without_danmaku : Video :=
  {| is_episode := false;
     get_info := Ok sample_info;
     get_page_id_by_index := get_page_id_by_index sample_video;
     get_danmakus := λ _ _,
       Raise {| exn_class := "NetworkException"; exn_msg := "412" |};
     get_danmaku_xml := λ _,
       Raise {| exn_class := "NetworkException"; exn_msg := "412" |} |}.

(** A credential with SESSDATA. *)
Definition logged_in_credential : Credential :=
  {| raise_for_no_sessdata := Ok tt |}.

Definition empty_world : World := {| fs := ∅; log := [] |}.

(** A world with a captioning file and a comment file. *)
Definition sample_world : World :=
  {| fs := {[ "sub.json" := "{body: []}"; "danmaku.xml" := "<i></i>" ]};
     log := [] |}.

(** * Properties *)

(** ** Strings *)

Example replace_once : replace ".ass" ".srt" "out/a.ass" = "out/a.srt".
Proof. reflexivity. Qed.
Example replace_twice : replace ".ass" ".srt" "a.ass.ass" = "a.srt.srt".
Proof. reflexivity. Qed.
Example replace_none : replace ".ass" ".srt" "a.txt" = "a.txt".
Proof. reflexivity. Qed.
Example replace_no_overlap : replace "aa" "b" "aaa" = "ba".
Proof. reflexivity. Qed.
Example contains_ass : contains ".ass" "out/a.ass" = true.
Proof. reflexivity. Qed.
Example contains_no_ass : contains ".ass" "out/a.txt" = false.
Proof. reflexivity. Qed.

Lemma prefix_split (old s : string) :
  String.prefix old s = true → ∃ rest, s = old +:+ rest.
Proof.
  revert s. induction old as [|a old IH]; intros s H.
  - by exists s.
  - destruct s as [|b s]; [done|]. simpl in H.
    destruct (Ascii.ascii_dec a b) as [->|]; [|done].
    destruct (IH _ H) as [rest ->]. by exists rest.
Qed.

Lemma app_inj_same_length (a b x y : string) :
  String.length a = String.length b → a +:+ x = b +:+ y → a = b.
Proof.
  revert b. induction a as [|c a IH]; intros [|d b] Hlen Heq; try done.
  simpl in *. injection Heq as -> Heq. f_equal. apply IH; [lia|done].
Qed.

(** Where [old] does not occur, [replace] changes nothing. *)
Lemma replace_absent (old new s : string) :
  contains old s = false → replace old new s = s.
Proof.
  unfold replace. induction s as [|c s IH]; intros H; [done|].
  cbn [contains] in H. apply orb_false_iff in H as [Hp Hc].
  cbn [replace_from]. rewrite Hp. f_equal. by apply IH.
Qed.

(** Where [old] occurs, replacing it by a different string of the same
    length changes the string. *)
Lemma replace_present (old new s : string) :
  String.length old = String.length new → old ≠ new →
  contains old s = true → replace old new s ≠ s.
Proof.
  intros Hlen Hne. unfold replace. induction s as [|c s IH]; intros H.
  - cbn in H. rewrite orb_false_r in H.
    destruct old; [|done]. destruct new; [done|discriminate Hlen].
  - cbn [replace_from]. destruct (String.prefix old (String c s)) eqn:Hp.
    + destruct (prefix_split _ _ Hp) as [rest Hs]. rewrite Hs.
      intros Heq. apply Hne. symmetry.
      by eapply app_inj_same_length.
    + cbn [contains] in H. rewrite Hp in H. simpl in H.
      intros [= Heq]. by apply IH.
Qed.

Lemma string_app_cons (c : ascii) (a b : string) :
  String c a +:+ b = String c (a +:+ b).
Proof. reflexivity. Qed.

Lemma string_app_nil_l (a : string) : "" +:+ a = a.
Proof. reflexivity. Qed.

Lemma string_app_assoc (a b c : string) : (a +:+ b) +:+ c = a +:+ (b +:+ c).
Proof.
  induction a as [|x a IH]; [done|]. rewrite !string_app_cons. by f_equal.
Qed.

Lemma prefix_app (old rest : string) : String.prefix old (old +:+ rest) = true.
Proof.
  induction old as [|c old IH]; [by destruct rest|].
  rewrite string_app_cons. cbn [String.prefix].
  by destruct (Ascii.ascii_dec c c).
Qed.

Lemma replace_from_passes (old new a rest : string) :
  replace_from old new (String.length a) (a +:+ rest)
  = replace_from old new 0 rest.
Proof.
  induction a as [|c a IH]; [by destruct rest|].
  rewrite string_app_cons. cbn [replace_from String.length]. apply IH.
Qed.

(** The three equations of [str.replace]: nothing to do at the end of the
    string; a character where [old] does not start is kept; an occurrence
    of [old] is replaced and the scan goes on after it. *)
Lemma replace_empty (old new : string) : replace old new "" = "".
Proof. reflexivity. Qed.

Lemma replace_keep (old new : string) (c : ascii) (s : string) :
  String.prefix old (String c s) = false →
  replace old new (String c s) = String c (replace old new s).
Proof. intros H. unfold replace. cbn [replace_from]. by rewrite H. Qed.

Lemma replace_occurrence (old new rest : string) :
  old ≠ "" →
  replace old new (old +:+ rest) = new +:+ replace old new rest.
Proof.
  destruct old as [|c old]; [done|]. intros _. unfold replace.
  pose proof (prefix_app (String c old) rest) as Hp.
  rewrite string_app_cons in *. cbn [replace_from]. rewrite Hp.
  cbn [String.length]. rewrite Nat.sub_1_r. cbn [Nat.pred].
  by rewrite replace_from_passes.
Qed.

(** ** Running a computation *)

Lemma bind_ok {A B} (m : M A) (f : A → M B) w a w' :
  m w = (Ok a, w') → (m ≫= f) w = f a w'.
Proof. intros H. unfold mbind, M_bind. by rewrite H. Qed.

Lemma bind_assoc {A B C} (m : M A) (f : A → M B) (g : B → M C) w :
  ((m ≫= f) ≫= g) w = (m ≫= λ a, f a ≫= g) w.
Proof. unfold mbind, M_bind. by destruct (m w) as [[a|e] w']. Qed.

Lemma call_run {A} ev (r : Result A) w : call ev r w = (r, logged w [ev]).
Proof. done. Qed.

Lemma open_w_run p w :
  open_w p w =
  (Ok tt, {| fs := <[p := ""]> (fs w); log := log w ++ [EvOpenW p] |}).
Proof. done. Qed.

Lemma file_write_run p s w c :
  fs w !! p = Some c →
  file_write p s w = (Ok tt, {| fs := <[p := c +:+ s]> (fs w); log := log w |}).
Proof. intros H. unfold file_write, set_fs. by rewrite H. Qed.

(** The loop that writes the danmaku, with the closing tag that follows
    it: the file grows by the XML of each danmaku in turn. *)
Lemma for_each_write_run {B} p ds (k : M B) w acc :
  fs w !! p = Some acc →
  (for_each ds (λ d, file_write p (to_xml d));; file_write p "</i>";; k) w =
  k {| fs := <[p := acc +:+ foldr (λ d rest, to_xml d +:+ rest) "</i>" ds]> (fs w);
       log := log w |}.
Proof.
  revert w acc. induction ds as [|d ds IH]; intros w acc H; cbn [for_each foldr].
  - unfold mbind at 1. unfold M_bind at 1. cbn.
    by rewrite (bind_ok _ _ _ _ _ (file_write_run p "</i>" w acc H)).
  - rewrite bind_assoc.
    rewrite (bind_ok _ _ _ _ _ (file_write_run p (to_xml d) w acc H)).
    rewrite (IH _ (acc +:+ to_xml d)) by apply lookup_insert_eq.
    cbn [fs log]. by rewrite insert_insert_eq, string_app_assoc.
Qed.

(** Unfolds the monad and its primitives down to the world. *)
Ltac run :=
  cbv [mbind M_bind mret M_ret call emit lift set_fs read_file raise
       try_except open_w file_write write_whole os_remove];
  cbn [fs log fst snd].

Section Runs.

Context (E : Collaborators).

Lemma Danmaku2ASS_run a w :
  Danmaku2ASS E a w =
  match fs w !! input_files a with
  | None => (Raise (FileNotFoundError (input_files a)), logged w [EvDanmaku2ASS a])
  | Some xml =>
      match danmaku2ass_text E a xml with
      | Raise e => (Raise e, logged w [EvDanmaku2ASS a])
      | Ok ass =>
          (Ok tt, {| fs := <[output_file a := ass]> (fs w);
                     log := log w ++ [EvDanmaku2ASS a] |})
      end
  end.
Proof.
  unfold Danmaku2ASS. run.
  destruct (fs w !! input_files a); [|done].
  by destruct (danmaku2ass_text E a _).
Qed.

Lemma json2srt_run doc out w :
  json2srt E doc out w =
  match fs w !! doc with
  | None => (Raise (FileNotFoundError doc), logged w [EvJson2srt doc out])
  | Some json =>
      match json2srt_text E json with
      | Raise e => (Raise e, logged w [EvJson2srt doc out])
      | Ok srt =>
          (Ok tt, {| fs := <[out := srt]> (fs w);
                     log := log w ++ [EvJson2srt doc out] |})
      end
  end.
Proof.
  unfold json2srt. run.
  destruct (fs w !! doc); [|done]. by destruct (json2srt_text E _).
Qed.

Lemma srt2ass_run input_file out_file sub_style w :
  srt2ass E input_file out_file sub_style w =
  match fs w !! input_file with
  | None =>
      (Raise (FileNotFoundError input_file),
       logged w [EvSrt2ass input_file out_file sub_style])
  | Some srt =>
      match srt2ass_text E sub_style srt with
      | Raise e => (Raise e, logged w [EvSrt2ass input_file out_file sub_style])
      | Ok ass =>
          (Ok tt, {| fs := <[out_file := ass]> (fs w);
                     log := log w ++ [EvSrt2ass input_file out_file sub_style] |})
      end
  end.
Proof.
  unfold srt2ass. run.
  destruct (fs w !! input_file); [|done]. by destruct (srt2ass_text E _ _).
Qed.

Lemma os_remove_run p w :
  os_remove p w =
  match fs w !! p with
  | None => (Raise (FileNotFoundError p), logged w [EvRemove p])
  | Some _ => (Ok tt, {| fs := delete p (fs w); log := log w ++ [EvRemove p] |})
  end.
Proof. run. by destruct (fs w !! p). Qed.

(** The end of both danmaku functions: the temporary file is written and
    converted. *)
Lemma export_temp_run x out size fn fsz al ft st w :
  export_ass_from_xml E (danmaku_temp E) out size fn fsz al ft st
    {| fs := <[danmaku_temp E := x]> (fs w); log := log w ++ [EvOpenW (danmaku_temp E)] |} =
  let a := export_args (danmaku_temp E) out size fn fsz al ft st in
  match danmaku2ass_text E a x with
  | Raise e =>
      (Raise e,
       {| fs := <[danmaku_temp E := x]> (fs w);
          log := log w ++ [EvOpenW (danmaku_temp E); EvDanmaku2ASS a] |})
  | Ok ass =>
      (Ok tt,
       {| fs := <[out := ass]> (<[danmaku_temp E := x]> (fs w));
          log := log w ++ [EvOpenW (danmaku_temp E); EvDanmaku2ASS a] |})
  end.
Proof.
  unfold export_ass_from_xml. rewrite Danmaku2ASS_run.
  cbn [fs log input_files export_args output_file]. rewrite lookup_insert_eq.
  unfold logged. cbn [fs log]. rewrite <- !app_assoc.
  by destruct (danmaku2ass_text E _ x).
Qed.

Lemma write_xml_and_export_run x out size fn fsz al ft st w :
  (open_w (danmaku_temp E);; file_write (danmaku_temp E) x;;
   export_ass_from_xml E (danmaku_temp E) out size fn fsz al ft st) w =
  export_ass_from_xml E (danmaku_temp E) out size fn fsz al ft st
    {| fs := <[danmaku_temp E := x]> (fs w); log := log w ++ [EvOpenW (danmaku_temp E)] |}.
Proof.
  rewrite (bind_ok _ _ _ _ _ (open_w_run _ w)).
  rewrite (bind_ok _ _ _ _ _ (file_write_run _ x _ "" (lookup_insert_eq _ _ _))).
  cbn [fs log]. by rewrite insert_insert_eq, string_app_nil_l.
Qed.

Lemma write_danmakus_and_export_run ds out size fn fsz al ft st w :
  (open_w (danmaku_temp E);; file_write (danmaku_temp E) "<i>";;
   for_each ds (λ d, file_write (danmaku_temp E) (to_xml d));;
   file_write (danmaku_temp E) "</i>";;
   export_ass_from_xml E (danmaku_temp E) out size fn fsz al ft st) w =
  export_ass_from_xml E (danmaku_temp E) out size fn fsz al ft st
    {| fs := <[danmaku_temp E := danmakus_xml ds]> (fs w);
       log := log w ++ [EvOpenW (danmaku_temp E)] |}.
Proof.
  rewrite (bind_ok _ _ _ _ _ (open_w_run _ w)).
  rewrite (bind_ok _ _ _ _ _ (file_write_run _ "<i>" _ "" (lookup_insert_eq _ _ _))).
  rewrite (for_each_write_run _ _ _ _ "<i>") by (cbn; by rewrite lookup_insert_eq).
  cbn [fs log]. by rewrite !insert_insert_eq.
Qed.

Lemma logged_logged w evs evs' : logged (logged w evs) evs' = logged w (evs ++ evs').
Proof. unfold logged. cbn. by rewrite app_assoc. Qed.

Lemma video_stage_size_run v w :
  video_stage_size v w = (Ok (video_size v), logged w [EvGetInfo]).
Proof.
  unfold video_stage_size, video_size. unfold mbind, M_bind, try_except.
  rewrite call_run. by destruct (get_info v).
Qed.

Lemma make_xml_video_run v page out cid fn fsz al ft st w :
  make_ass_file_danmakus_xml E (OVideo v) page out cid fn fsz al ft st w =
  match resolve_cid v page cid w with
  | (Raise e, w1) => (Raise e, w1)
  | (Ok cid', w1) =>
      let cid_arg := if is_episode v then None else cid' in
      match get_danmaku_xml v cid_arg with
      | Raise e => (Raise e, logged w1 [EvGetInfo; EvGetDanmakuXml cid_arg])
      | Ok x =>
          xml_tail E x out (video_size v) fn fsz al ft st
            (logged w1 [EvGetInfo; EvGetDanmakuXml cid_arg])
      end
  end.
Proof.
  unfold make_ass_file_danmakus_xml. rewrite !bind_assoc.
  unfold mbind at 1. unfold M_bind at 1.
  destruct (resolve_cid v page cid w) as [[cid'|e] w1]; [|done].
  rewrite !bind_assoc. rewrite (bind_ok _ _ _ _ _ (video_stage_size_run v w1)).
  rewrite !bind_assoc. cbv zeta.
  destruct (is_episode v); unfold mbind at 1; unfold M_bind at 1;
    rewrite call_run, logged_logged;
    by destruct (get_danmaku_xml v _).
Qed.

Lemma make_xml_cheese_run c page out cid fn fsz al ft st w :
  make_ass_file_danmakus_xml E (OCheese c) page out cid fn fsz al ft st w =
  match cheese_get_danmaku_xml c with
  | Raise e => (Raise e, logged w [EvGetDanmakuXml None])
  | Ok x =>
      xml_tail E x out (1440, 1080)%Z fn fsz al ft st
        (logged w [EvGetDanmakuXml None])
  end.
Proof.
  unfold make_ass_file_danmakus_xml. rewrite !bind_assoc.
  unfold mbind at 1. unfold M_bind at 1. rewrite call_run.
  by destruct (cheese_get_danmaku_xml c).
Qed.

Lemma make_protobuf_run obj page out cid credential date fn fsz al ft st w :
  make_ass_file_danmakus_protobuf E obj page out cid credential date
    fn fsz al ft st w =
  match check_credential credential date w with
  | (Raise e, w0) => (Raise e, w0)
  | (Ok _, w0) =>
      match obj with
      | OVideo v =>
          match resolve_cid v page cid w0 with
          | (Raise e, w1) => (Raise e, w1)
          | (Ok cid', w1) =>
              let cid_arg := if is_episode v then None else cid' in
              let date_arg := if is_episode v then None else date in
              match get_danmakus v cid_arg date_arg with
              | Raise e =>
                  (Raise e, logged w1 [EvGetInfo; EvGetDanmakus cid_arg date_arg])
              | Ok ds =>
                  protobuf_tail E ds out (video_size v) fn fsz al ft st
                    (logged w1 [EvGetInfo; EvGetDanmakus cid_arg date_arg])
              end
          end
      | OCheese c =>
          match cheese_get_danmakus c with
          | Raise e => (Raise e, logged w0 [EvGetDanmakus None None])
          | Ok ds =>
              protobuf_tail E ds out (1440, 1080)%Z fn fsz al ft st
                (logged w0 [EvGetDanmakus None None])
          end
      end
  end.
Proof.
  unfold make_ass_file_danmakus_protobuf.
  unfold mbind at 1. unfold M_bind at 1.
  destruct (check_credential credential date w) as [[[]|e] w0]; [|done].
  destruct obj as [v|c]; rewrite !bind_assoc.
  - unfold mbind at 1. unfold M_bind at 1.
    destruct (resolve_cid v page cid w0) as [[cid'|e] w1]; [|done].
    rewrite !bind_assoc. rewrite (bind_ok _ _ _ _ _ (video_stage_size_run v w1)).
    rewrite !bind_assoc. cbv zeta.
    destruct (is_episode v); unfold mbind at 1; unfold M_bind at 1;
      rewrite call_run, logged_logged;
      by destruct (get_danmakus v _ _).
  - unfold mbind at 1. unfold M_bind at 1. rewrite call_run.
    by destruct (cheese_get_danmakus c).
Qed.

Lemma xml_tail_run x out size fn fsz al ft st w :
  xml_tail E x out size fn fsz al ft st w =
  let a := export_args (danmaku_temp E) out size fn fsz al ft st in
  match danmaku2ass_text E a x with
  | Raise e =>
      (Raise e,
       {| fs := <[danmaku_temp E := x]> (fs w);
          log := log w ++ [EvOpenW (danmaku_temp E); EvDanmaku2ASS a] |})
  | Ok ass =>
      (Ok tt,
       {| fs := <[out := ass]> (<[danmaku_temp E := x]> (fs w));
          log := log w ++ [EvOpenW (danmaku_temp E); EvDanmaku2ASS a] |})
  end.
Proof.
  unfold xml_tail. rewrite write_xml_and_export_run. apply export_temp_run.
Qed.

Lemma protobuf_tail_run ds out size fn fsz al ft st w :
  protobuf_tail E ds out size fn fsz al ft st w =
  let a := export_args (danmaku_temp E) out size fn fsz al ft st in
  match danmaku2ass_text E a (danmakus_xml ds) with
  | Raise e =>
      (Raise e,
       {| fs := <[danmaku_temp E := danmakus_xml ds]> (fs w);
          log := log w ++ [EvOpenW (danmaku_temp E); EvDanmaku2ASS a] |})
  | Ok ass =>
      (Ok tt,
       {| fs := <[out := ass]> (<[danmaku_temp E := danmakus_xml ds]> (fs w));
          log := log w ++ [EvOpenW (danmaku_temp E); EvDanmaku2ASS a] |})
  end.
Proof.
  unfold protobuf_tail. rewrite write_danmakus_and_export_run.
  apply export_temp_run.
Qed.

Lemma check_credential_run credential date w :
  check_credential credential date w =
  match date, credential with
  | None, _ => (Ok tt, w)
  | Some _, None =>
      (Raise (AttributeError
                "'NoneType' object has no attribute 'raise_for_no_sessdata'"), w)
  | Some _, Some c => (raise_for_no_sessdata c, logged w [EvRaiseForNoSessdata])
  end.
Proof. by destruct date, credential. Qed.

Lemma resolve_cid_run v page cid w :
  resolve_cid v page cid w =
  if is_episode v then (Ok (Some 0%Z), w)
  else
    match cid, page with
    | Some c, _ => (Ok (Some c), w)
    | None, None => (Raise (ArgsException "page_index 和 cid 至少提供一个。"), w)
    | None, Some p =>
        match get_page_id_by_index v p with
        | Ok c => (Ok (Some c), logged w [EvGetPageId p])
        | Raise e => (Raise e, logged w [EvGetPageId p])
        end
    end.
Proof.
  unfold resolve_cid. destruct (is_episode v); [done|].
  destruct cid as [c|], page as [p|]; try done;
    unfold mbind, M_bind; rewrite call_run;
    by destruct (get_page_id_by_index v p).
Qed.

(** A normal return of [export_ass_from_json]: both conversions succeeded,
    and the world is the one they and the removal leave. *)
Lemma export_ass_from_json_ok file_local output_local w w' :
  export_ass_from_json E file_local output_local w = (Ok tt, w') →
  ∃ json s a,
    fs w !! file_local = Some json ∧
    json2srt_text E json = Ok s ∧
    srt2ass_text E "movie" s = Ok a ∧
    w' = {| fs := delete (replace ".ass" ".srt" output_local)
                    (<[output_local := a]>
                       (<[replace ".ass" ".srt" output_local := s]> (fs w)));
            log := log w ++ [EvJson2srt file_local (replace ".ass" ".srt" output_local);
                             EvSrt2ass (replace ".ass" ".srt" output_local) output_local "movie";
                             EvRemove (replace ".ass" ".srt" output_local)] |}.
Proof.
  unfold export_ass_from_json. generalize (replace ".ass" ".srt" output_local).
  intros srt. unfold mbind, M_bind. rewrite json2srt_run.
  destruct (fs w !! file_local) as [json|]; [|done].
  destruct (json2srt_text E json) as [s|] eqn:Hs; [|done].
  rewrite srt2ass_run. cbn [fs log]. rewrite lookup_insert_eq.
  destruct (srt2ass_text E "movie" s) as [a|] eqn:Ha; [|done].
  rewrite os_remove_run. cbn [fs log].
  destruct (_ !! srt) eqn:Hsrt; [|done].
  intros [= <-]. exists json, s, a. repeat split; try done.
  by rewrite <- !app_assoc.
Qed.

(** The other direction: when both conversions succeed the call returns. *)
Lemma export_ass_from_json_succeeds file_local output_local w json s a :
  fs w !! file_local = Some json →
  json2srt_text E json = Ok s →
  srt2ass_text E "movie" s = Ok a →
  ∃ w', export_ass_from_json E file_local output_local w = (Ok tt, w').
Proof.
  intros Hj Hs Ha. unfold export_ass_from_json.
  generalize (replace ".ass" ".srt" output_local). intros srt.
  unfold mbind, M_bind. rewrite json2srt_run, Hj, Hs.
  rewrite srt2ass_run. cbn [fs log]. rewrite lookup_insert_eq, Ha.
  rewrite os_remove_run. cbn [fs log].
  destruct (decide (output_local = srt)) as [->|Hne].
  - rewrite lookup_insert_eq. eauto.
  - rewrite lookup_insert_ne, lookup_insert_eq by done. eauto.
Qed.

End Runs.

(** ** What a computation adds to the log *)

Section Logs.

Context {A B : Type} (P : Event → Prop).

Lemma logs_only_ret (a : A) : logs_only P (mret a : M A).
Proof. intros w. exists []. by rewrite app_nil_r. Qed.

Lemma logs_only_raise (e : exn) : logs_only P (raise e : M A).
Proof. intros w. exists []. by rewrite app_nil_r. Qed.

Lemma logs_only_lift (r : Result A) : logs_only P (lift r).
Proof. intros w. exists []. by rewrite app_nil_r. Qed.

Lemma logs_only_set_fs f : logs_only P (set_fs f).
Proof. intros w. exists []. cbn. by rewrite app_nil_r. Qed.

Lemma logs_only_read_file p : logs_only P (read_file p).
Proof.
  intros w. exists []. unfold read_file.
  destruct (fs w !! p); by rewrite app_nil_r.
Qed.

Lemma logs_only_emit ev : P ev → logs_only P (emit ev).
Proof. intros H w. exists [ev]. split; [done|]. by constructor. Qed.

Lemma logs_only_bind (m : M A) (f : A → M B) :
  logs_only P m → (∀ a, logs_only P (f a)) → logs_only P (m ≫= f).
Proof.
  intros Hm Hf w. destruct (Hm w) as (evs & Hlog & Hevs).
  unfold mbind, M_bind. destruct (m w) as [[a|e] w1]; cbn [snd] in *.
  - destruct (Hf a w1) as (evs' & Hlog' & Hevs').
    exists (evs ++ evs'). rewrite Hlog', Hlog, app_assoc.
    split; [done|]. by apply Forall_app.
  - by exists evs.
Qed.

Lemma logs_only_try_except (m : M A) (h : exn → M A) :
  logs_only P m → (∀ e, logs_only P (h e)) → logs_only P (try_except m h).
Proof.
  intros Hm Hh w. destruct (Hm w) as (evs & Hlog & Hevs).
  unfold try_except. destruct (m w) as [[a|e] w1]; cbn [snd] in *.
  - by exists evs.
  - destruct (Hh e w1) as (evs' & Hlog' & Hevs').
    exists (evs ++ evs'). rewrite Hlog', Hlog, app_assoc.
    split; [done|]. by apply Forall_app.
Qed.

End Logs.

Lemma logs_only_call {A} (P : Event → Prop) ev (r : Result A) :
  P ev → logs_only P (call ev r).
Proof.
  intros H. apply logs_only_bind; [by apply logs_only_emit|].
  intros _. apply logs_only_lift.
Qed.

Lemma logs_only_for_each {A} (P : Event → Prop) (l : list A) body :
  (∀ x, logs_only P (body x)) → logs_only P (for_each l body).
Proof.
  intros H. induction l as [|x l IH]; cbn [for_each].
  - apply logs_only_ret.
  - apply logs_only_bind; [apply H|]. by intros _.
Qed.

Lemma logs_only_weaken {A} (P Q : Event → Prop) (m : M A) :
  (∀ ev, P ev → Q ev) → logs_only P m → logs_only Q m.
Proof.
  intros HPQ Hm w. destruct (Hm w) as (evs & Hlog & Hevs).
  exists evs. split; [done|]. by eapply Forall_impl.
Qed.

(** Breaks a [logs_only] goal along the structure of the computation and
    leaves the conditions on the logged events. *)
Ltac logs_step :=
  lazymatch goal with
  | |- logs_only _ (mbind _ _) => apply logs_only_bind; [|intros ?]
  | |- logs_only _ (mret _) => apply logs_only_ret
  | |- logs_only _ (raise _) => apply logs_only_raise
  | |- logs_only _ (lift _) => apply logs_only_lift
  | |- logs_only _ (set_fs _) => apply logs_only_set_fs
  | |- logs_only _ (read_file _) => apply logs_only_read_file
  | |- logs_only _ (emit _) => apply logs_only_emit
  | |- logs_only _ (call _ _) => apply logs_only_call
  | |- logs_only _ (open_w _) => unfold open_w
  | |- logs_only _ (file_write _ _) => unfold file_write
  | |- logs_only _ (write_whole _ _) => unfold write_whole
  | |- logs_only _ (os_remove _) => unfold os_remove
  | |- logs_only _ (try_except _ _) => apply logs_only_try_except; [|intros ?]
  | |- logs_only _ (for_each _ _) => apply logs_only_for_each; intros ?
  | |- logs_only _ (match ?x with _ => _ end) => destruct x
  | |- logs_only _ (let '(_, _) := ?x in _) => destruct x
  end.

Ltac logs :=
  repeat (cbv beta; logs_step).

(** ** What the danmaku functions log *)

Ltac log_norm :=
  unfold logged; cbn [fs log fst snd]; rewrite <- ?app_assoc; cbn [app].

Ltac events :=
  log_norm;
  first [ eexists; split; [reflexivity|]
        | exists []; split; [by rewrite app_nil_r|] ];
  repeat match goal with
         | |- Forall _ [] => constructor
         | |- Forall _ (_ :: _) => constructor; [by econstructor|]
         end.

Section Events.

Context (E : Collaborators).

Lemma make_xml_events obj page out cid fn fsz al ft st :
  logs_only (danmaku_event E obj out fn fsz al ft st)
    (make_ass_file_danmakus_xml E obj page out cid fn fsz al ft st).
Proof.
  intros w. destruct obj as [v|c].
  - rewrite make_xml_video_run, resolve_cid_run. cbv zeta.
    destruct (is_episode v).
    + destruct (get_danmaku_xml v None); [|events].
      rewrite xml_tail_run. cbv zeta.
      destruct (danmaku2ass_text E _ _); events.
    + destruct cid as [c|], page as [p|];
        try destruct (get_page_id_by_index v p);
        try (destruct (get_danmaku_xml v _);
             [rewrite xml_tail_run; cbv zeta; destruct (danmaku2ass_text E _ _)|]);
        events.
  - rewrite make_xml_cheese_run.
    destruct (cheese_get_danmaku_xml c); [|events].
    rewrite xml_tail_run. cbv zeta.
    destruct (danmaku2ass_text E _ _); events.
Qed.

Lemma make_protobuf_events obj page out cid credential date fn fsz al ft st :
  logs_only (danmaku_event E obj out fn fsz al ft st)
    (make_ass_file_danmakus_protobuf E obj page out cid credential date
       fn fsz al ft st).
Proof.
  intros w. rewrite make_protobuf_run, check_credential_run.
  destruct date as [d|], credential as [cr|];
    try destruct (raise_for_no_sessdata cr) as [[]|];
    try events.
  all: destruct obj as [v|c].
  all: try (rewrite resolve_cid_run; cbv zeta; destruct (is_episode v);
            [|destruct cid as [c|], page as [p|];
              try destruct (get_page_id_by_index v p)]).
  all: try events.
  all: try (destruct (get_danmakus v _ _); [|events]).
  all: try (destruct (cheese_get_danmakus c); [|events]).
  all: rewrite protobuf_tail_run; cbv zeta;
    destruct (danmaku2ass_text E _ _); events.
Qed.

End Events.

(** ** The subtitle function *)

Section Subtitle.

Context (E : Collaborators).

Lemma subtitle_loop_no_match l out name w :
  Forall (λ s, lan_doc s ≠ name) l →
  subtitle_loop E l out name w = (Raise lookup_error, w).
Proof.
  induction 1 as [|s l Hs _ IH]; cbn [subtitle_loop]; [done|].
  apply String.eqb_neq in Hs. by rewrite Hs.
Qed.

Lemma subtitle_loop_first_match pre s post out name w :
  Forall (λ t, lan_doc t ≠ name) pre →
  lan_doc s = name →
  subtitle_loop E (pre ++ s :: post) out name w = download_and_convert E s out w.
Proof.
  intros Hpre Hs. induction Hpre as [|t pre Ht _ IH]; cbn [subtitle_loop app].
  - apply String.eqb_eq in Hs. by rewrite Hs.
  - apply String.eqb_neq in Ht. by rewrite Ht.
Qed.

(** Either no entry has the name, or there is a first one that has it. *)
Lemma first_match (name : string) (l : list SubtitleEntry) :
  Forall (λ s, lan_doc s ≠ name) l
  ∨ ∃ pre s post,
      l = pre ++ s :: post
      ∧ Forall (λ t, lan_doc t ≠ name) pre
      ∧ lan_doc s = name.
Proof.
  induction l as [|t l IH]; [by left|].
  destruct (decide (lan_doc t = name)) as [Ht|Ht].
  - right. by exists [], t, l.
  - destruct IH as [IH|(pre & s & post & -> & Hpre & Hs)].
    + left. by constructor.
    + right. exists (t :: pre), s, post. repeat split; [|done]. by constructor.
Qed.

Lemma download_and_convert_run s out w :
  download_and_convert E s out w =
  match request E "GET" (subtitle_url s) with
  | Raise e => (Raise e, logged w [EvRequest "GET" (subtitle_url s)])
  | Ok content =>
      export_ass_from_json E (subtitle_temp E) out
        {| fs := <[subtitle_temp E := content]> (fs w);
           log := log w ++ [EvRequest "GET" (subtitle_url s);
                            EvOpenW (subtitle_temp E)] |}
  end.
Proof.
  unfold download_and_convert. unfold mbind at 1. unfold M_bind at 1.
  rewrite call_run. destruct (request E "GET" _) as [content|e]; [|done].
  rewrite (bind_ok _ _ _ _ _ (open_w_run _ _)).
  rewrite (bind_ok _ _ _ _ _ (file_write_run _ content _ "" (lookup_insert_eq _ _ _))).
  cbn [fs log logged]. by rewrite insert_insert_eq, string_app_nil_l, <- app_assoc.
Qed.

Lemma make_ass_file_subtitle_run obj out name credential w :
  make_ass_file_subtitle E obj out name credential w =
  match get_info obj with
  | Raise e => (Raise e, logged w [EvGetInfo])
  | Ok info => subtitle_loop E (subtitle_list info) out name (logged w [EvGetInfo])
  end.
Proof.
  unfold make_ass_file_subtitle. unfold mbind, M_bind. rewrite call_run.
  by destruct (get_info obj).
Qed.

Lemma export_ass_from_json_logs P file_local output_local :
  P (EvJson2srt file_local (replace ".ass" ".srt" output_local)) →
  P (EvSrt2ass (replace ".ass" ".srt" output_local) output_local "movie") →
  P (EvRemove (replace ".ass" ".srt" output_local)) →
  logs_only P (export_ass_from_json E file_local output_local).
Proof.
  intros. unfold export_ass_from_json, json2srt, srt2ass. logs; done.
Qed.

End Subtitle.

Lemma export_ass_from_xml_log E file_local output_local stage_size fn fsz al ft st w :
  log (export_ass_from_xml E file_local output_local stage_size
         fn fsz al ft st w).2
  = log w ++ [EvDanmaku2ASS
                (export_args file_local output_local stage_size fn fsz al ft st)].
Proof.
  unfold export_ass_from_xml. rewrite Danmaku2ASS_run.
  destruct (fs w !! _); [|done]. by destruct (danmaku2ass_text E _ _).
Qed.

(** ** The temporary files after a return *)

Section Kept.

Context (E : Collaborators).

Lemma lookup_under_insert (m : gmap string string) (p q x y : string) :
  is_Some (<[q := y]> (<[p := x]> m) !! p).
Proof.
  destruct (decide (q = p)) as [->|Hne].
  - rewrite lookup_insert_eq. eauto.
  - rewrite lookup_insert_ne, lookup_insert_eq by done. eauto.
Qed.

Lemma xml_tail_keeps_temp x out size fn fsz al ft st w w' :
  xml_tail E x out size fn fsz al ft st w = (Ok tt, w') →
  is_Some (fs w' !! danmaku_temp E).
Proof.
  rewrite xml_tail_run. cbv zeta.
  destruct (danmaku2ass_text E _ _); [|done]. intros [= <-].
  apply lookup_under_insert.
Qed.

Lemma protobuf_tail_keeps_temp ds out size fn fsz al ft st w w' :
  protobuf_tail E ds out size fn fsz al ft st w = (Ok tt, w') →
  is_Some (fs w' !! danmaku_temp E).
Proof.
  rewrite protobuf_tail_run. cbv zeta.
  destruct (danmaku2ass_text E _ _); [|done]. intros [= <-].
  apply lookup_under_insert.
Qed.

Lemma danmaku_temp_kept_xml obj page out cid fn fsz al ft st w w' :
  make_ass_file_danmakus_xml E obj page out cid fn fsz al ft st w = (Ok tt, w') →
  is_Some (fs w' !! danmaku_temp E).
Proof.
  destruct obj as [v|c].
  - rewrite make_xml_video_run.
    destruct (resolve_cid v page cid w) as [[cid'|e] w1]; [|done]. cbv zeta.
    destruct (get_danmaku_xml v _); [|done]. apply xml_tail_keeps_temp.
  - rewrite make_xml_cheese_run.
    destruct (cheese_get_danmaku_xml c); [|done]. apply xml_tail_keeps_temp.
Qed.

Lemma danmaku_temp_kept_protobuf
    obj page out cid credential date fn fsz al ft st w w' :
  make_ass_file_danmakus_protobuf E obj page out cid credential date
    fn fsz al ft st w = (Ok tt, w') →
  is_Some (fs w' !! danmaku_temp E).
Proof.
  rewrite make_protobuf_run.
  destruct (check_credential credential date w) as [[[]|e] w0]; [|done].
  destruct obj as [v|c].
  - destruct (resolve_cid v page cid w0) as [[cid'|e] w1]; [|done]. cbv zeta.
    destruct (get_danmakus v _ _); [|done]. apply protobuf_tail_keeps_temp.
  - destruct (cheese_get_danmakus c); [|done]. apply protobuf_tail_keeps_temp.
Qed.

Lemma subtitle_temp_kept obj out name credential w w' :
  make_ass_file_subtitle E obj out name credential w = (Ok tt, w') →
  replace ".ass" ".srt" out ≠ subtitle_temp E →
  is_Some (fs w' !! subtitle_temp E).
Proof.
  rewrite make_ass_file_subtitle_run. destruct (get_info obj) as [info|]; [|done].
  destruct (first_match name (subtitle_list info))
    as [Hnone|(pre & s & post & -> & Hpre & Hs)].
  - by rewrite subtitle_loop_no_match.
  - rewrite subtitle_loop_first_match, download_and_convert_run by done.
    destruct (request E "GET" _) as [content|]; [|done].
    intros Hrun Hne.
    apply export_ass_from_json_ok in Hrun as (? & ? & ass & _ & _ & _ & ->).
    cbn [fs logged]. rewrite lookup_delete_ne by done.
    destruct (decide (out = subtitle_temp E)) as [->|Hout].
    + rewrite lookup_insert_eq. eauto.
    + rewrite lookup_insert_ne, lookup_insert_ne, lookup_insert_eq by done. eauto.
Qed.

End Kept.

(** The removal is the last statement of [export_ass_from_json] and is not
    reached when [srt2ass] raises: the SRT file is then left. *)
Example srt_left_when_srt2ass_raises :
  let run := export_ass_from_json failing_srt2ass_collaborators
               "sub.json" "out.ass" sample_world in
  run.1 = Raise {| exn_class := "UnicodeDecodeError"; exn_msg := "" |}
  ∧ fs run.2 !! "out.srt" = Some "1 00:00:00,000 --> 00:00:02,000 {body: []}"
  ∧ fs run.2 !! "out.ass" = None.
Proof. by vm_compute. Qed.

Lemma video_size_fallback v e :
  get_info v = Raise e → video_size v = (1440, 1080)%Z.
Proof. intros H. unfold video_size. by rewrite H. Qed.

(** ** The claims *)

(** C1, as the code has it.  Once the metadata are retrieved,
    [make_ass_file_subtitle] raises the lookup error, with nothing
    requested and nothing written, exactly when no entry of the track list
    has the requested name.  Otherwise the first entry that has it is
    requested; when the request succeeds its content is written to the
    temporary file and handed to [export_ass_from_json] with the output
    path.  The call then returns exactly when the two conversions succeed,
    and a failure of the request or of a conversion is raised to the
    caller. *)
Theorem make_ass_file_subtitle_lookup
    (E : Collaborators) (obj : Video) (info : Info) (out name : string)
    (credential : option Credential) (w : World) :
  get_info obj = Ok info →
  let run := make_ass_file_subtitle E obj out name credential w in
  (run = (Raise lookup_error, logged w [EvGetInfo])
   ↔ ∀ s, s ∈ subtitle_list info → lan_doc s ≠ name)
  ∧ ∀ pre s post,
      subtitle_list info = pre ++ s :: post →
      (∀ t, t ∈ pre → lan_doc t ≠ name) →
      lan_doc s = name →
      match request E "GET" (subtitle_url s) with
      | Raise e =>
          run = (Raise e, logged w [EvGetInfo; EvRequest "GET" (subtitle_url s)])
      | Ok content =>
          run = export_ass_from_json E (subtitle_temp E) out
                  {| fs := <[subtitle_temp E := content]> (fs w);
                     log := log w ++ [EvGetInfo;
                                      EvRequest "GET" (subtitle_url s);
                                      EvOpenW (subtitle_temp E)] |}
          ∧ (run.1 = Ok tt
             ↔ ∃ srt ass,
                 json2srt_text E content = Ok srt
                 ∧ srt2ass_text E "movie" srt = Ok ass)
      end.
Proof.
  intros Hinfo run.
  assert (∀ pre s post,
            subtitle_list info = pre ++ s :: post →
            (∀ t, t ∈ pre → lan_doc t ≠ name) →
            lan_doc s = name →
            run = download_and_convert E s out (logged w [EvGetInfo])) as Hfirst.
  { intros pre s post Hl Hpre Hs. unfold run.
    rewrite make_ass_file_subtitle_run, Hinfo, Hl.
    apply subtitle_loop_first_match; [|done]. by apply Forall_forall. }
  split.
  - split.
    + intros Hrun.
      destruct (first_match name (subtitle_list info))
        as [Hnone|(pre & s & post & Hl & Hpre & Hs)].
      { by apply Forall_forall. }
      exfalso. rewrite (Hfirst pre s post Hl) in Hrun;
        [|by apply Forall_forall|done].
      rewrite download_and_convert_run in Hrun.
      destruct (request E "GET" (subtitle_url s)) as [content|e].
      * destruct (export_ass_from_json_logs E (λ _, True) (subtitle_temp E) out
                    I I I
                    {| fs := <[subtitle_temp E := content]> (fs (logged w [EvGetInfo]));
                       log := log (logged w [EvGetInfo])
                              ++ [EvRequest "GET" (subtitle_url s);
                                  EvOpenW (subtitle_temp E)] |})
          as (evs & Hlog & _).
        rewrite Hrun in Hlog. cbn in Hlog.
        apply (f_equal length) in Hlog. rewrite !length_app in Hlog.
        cbn in Hlog. lia.
      * apply (f_equal (λ r, length (log r.2))) in Hrun.
        cbn in Hrun. rewrite !length_app in Hrun. cbn in Hrun. lia.
    + intros Hnone. unfold run.
      rewrite make_ass_file_subtitle_run, Hinfo.
      apply subtitle_loop_no_match. by apply Forall_forall.
  - intros pre s post Hl Hpre Hs.
    rewrite (Hfirst pre s post Hl Hpre Hs), download_and_convert_run.
    destruct (request E "GET" (subtitle_url s)) as [content|e].
    + unfold logged. cbn [fs log]. rewrite <- app_assoc. cbn [app].
      split; [done|]. split.
      * intros Hok.
        destruct (export_ass_from_json E _ _ _) as [[[]|?] w'] eqn:Hrun; [|done].
        apply export_ass_from_json_ok in Hrun
          as (json & srt & ass & Hjson & Hsrt & Hass & _).
        cbn in Hjson. rewrite lookup_insert_eq in Hjson.
        injection Hjson as <-. eauto.
      * intros (srt & ass & Hsrt & Hass).
        edestruct (export_ass_from_json_succeeds E (subtitle_temp E) out)
          as [w' ->]; [|exact Hsrt|exact Hass|done].
        cbn. apply lookup_insert_eq.
    + unfold logged. cbn [fs log]. by rewrite <- app_assoc.
Qed.

Lemma make_ass_file_subtitle_lookup_witness :
  get_info sample_video = Ok sample_info
  ∧ (make_ass_file_subtitle sample_collaborators sample_video
       "out.ass" "Deutsch" None empty_world
     = (Raise lookup_error, logged empty_world [EvGetInfo])
     ↔ ∀ s, s ∈ subtitle_list sample_info → lan_doc s ≠ "Deutsch").
Proof.
  split; [reflexivity|].
  exact (proj1 (make_ass_file_subtitle_lookup sample_collaborators sample_video
                  sample_info "out.ass" "Deutsch" None empty_world eq_refl)).
Defined.

(** C1, as the claim has it: the track list has an entry with the
    requested name, and the call raises all the same, because the request
    fails; and with an output path without [.ass] the call returns and
    leaves no file at the output path. *)
Lemma subtitle_match_still_raises :
  get_info sample_video = Ok sample_info
  ∧ (∃ s, s ∈ subtitle_list sample_info ∧ lan_doc s = "English")
  ∧ (make_ass_file_subtitle offline_collaborators sample_video
       "out.ass" "English" None empty_world).1
    = Raise {| exn_class := "ConnectError";
               exn_msg := "All connection attempts failed" |}
  ∧ (let run := make_ass_file_subtitle sample_collaborators sample_video
                  "subtitle" "English" None empty_world in
     run.1 = Ok tt ∧ fs run.2 !! "subtitle" = None).
Proof.
  split; [reflexivity|]. split; [|by vm_compute].
  eexists. split; [apply list_elem_of_here|reflexivity].
Qed.

(** The first of two entries with the requested name is the one
    downloaded. *)
Example subtitle_first_match :
  let run := make_ass_file_subtitle sample_collaborators sample_video
               "out.ass" "English" None empty_world in
  run.1 = Ok tt
  ∧ log run.2
    = [EvGetInfo; EvRequest "GET" "https://example.org/en.json";
       EvOpenW "/tmp/subtitle.json";
       EvJson2srt "/tmp/subtitle.json" "out.srt";
       EvSrt2ass "out.srt" "out.ass" "movie";
       EvRemove "out.srt"]
  ∧ fs run.2 !! "out.srt" = None
  ∧ is_Some (fs run.2 !! "out.ass")
  ∧ is_Some (fs run.2 !! "/tmp/subtitle.json").
Proof. vm_compute. repeat split; eauto. Qed.

(** C2, as the code has it.  The intermediate SRT file is gone when
    [export_ass_from_json] returns.  The temporary danmaku file and the
    temporary subtitle file are not removed: the danmaku functions never
    call [os.remove], the subtitle function calls it for the SRT path
    only, and when one of them returns its temporary file is still
    there. *)
Theorem temporary_files_after_return (E : Collaborators) :
  (∀ file_local out w w',
     export_ass_from_json E file_local out w = (Ok tt, w') →
     fs w' !! replace ".ass" ".srt" out = None)
  ∧ (∀ obj page out cid fn fsz al ft st,
       logs_only (λ ev, ∀ p, ev ≠ EvRemove p)
         (make_ass_file_danmakus_xml E obj page out cid fn fsz al ft st)
       ∧ ∀ w w',
           make_ass_file_danmakus_xml E obj page out cid fn fsz al ft st w
             = (Ok tt, w') →
           is_Some (fs w' !! danmaku_temp E))
  ∧ (∀ obj page out cid credential date fn fsz al ft st,
       logs_only (λ ev, ∀ p, ev ≠ EvRemove p)
         (make_ass_file_danmakus_protobuf E obj page out cid credential date
            fn fsz al ft st)
       ∧ ∀ w w',
           make_ass_file_danmakus_protobuf E obj page out cid credential date
             fn fsz al ft st w = (Ok tt, w') →
           is_Some (fs w' !! danmaku_temp E))
  ∧ (∀ obj out name credential,
       logs_only (λ ev, ∀ p, ev = EvRemove p → p = replace ".ass" ".srt" out)
         (make_ass_file_subtitle E obj out name credential)
       ∧ ∀ w w',
           make_ass_file_subtitle E obj out name credential w = (Ok tt, w') →
           replace ".ass" ".srt" out ≠ subtitle_temp E →
           is_Some (fs w' !! subtitle_temp E)).
Proof.
  split; [|split; [|split]].
  - intros file_local out w w' Hrun.
    apply export_ass_from_json_ok in Hrun as (? & ? & ? & _ & _ & _ & ->).
    apply lookup_delete_eq.
  - intros obj page out cid fn fsz al ft st. split.
    + eapply logs_only_weaken; [|apply make_xml_events].
      intros ev Hev p ->. inversion Hev.
    + intros w w' Hrun. eapply danmaku_temp_kept_xml; eauto.
  - intros obj page out cid credential date fn fsz al ft st. split.
    + eapply logs_only_weaken; [|apply make_protobuf_events].
      intros ev Hev p ->. inversion Hev.
    + intros w w' Hrun. eapply danmaku_temp_kept_protobuf; eauto.
  - intros obj out name credential. split.
    + unfold make_ass_file_subtitle. logs; [done|].
      induction (subtitle_list _) as [|s l IH]; cbn [subtitle_loop]; logs;
        try done.
      apply export_ass_from_json_logs; try done. by intros p [= <-].
    + intros w w' Hrun Hne. eapply subtitle_temp_kept; eauto.
Qed.

Lemma temporary_files_after_return_witness :
  fs (export_ass_from_json sample_collaborators "sub.json" "out.ass"
        sample_world).2 !! replace ".ass" ".srt" "out.ass" = None.
Proof.
  apply (proj1 (temporary_files_after_return sample_collaborators)
           "sub.json" "out.ass" sample_world).
  by vm_compute.
Defined.

(** C2, as the claim has it: [make_ass_file_danmakus_xml] has returned and
    the temporary danmaku file is still there, with the comments in it. *)
Lemma temporary_danmaku_file_stays :
  let run :=
    make_ass_file_danmakus_xml sample_collaborators (OVideo sample_video)
      (Some 0%Z) "out.ass" None
      "Simsun" (PyFloat 25 0) (PyInt 1) (PyInt 7) (PyInt 5) empty_world in
  run.1 = Ok tt
  ∧ danmaku_temp sample_collaborators = "/tmp/danmaku_temp.xml"
  ∧ fs run.2 !! "/tmp/danmaku_temp.xml"
    = Some "<i><d>first</d><d>second</d></i>".
Proof. by vm_compute. Qed.

(** C3.  When [get_info] fails on a [Video], both danmaku functions go on
    as if the metadata had said 1440 by 1080: the run is the run on the
    same video with that metadata, every call of [Danmaku2ASS] it makes
    has width 1440 and height 1080, and once the arguments are accepted and
    the danmaku retrieved that call is made, and the function returns
    exactly when the converter does. *)
Theorem metadata_failure_falls_back
    (E : Collaborators) (v : Video) (e : exn) (page : option Z) (out : string)
    (cid : option Z) (credential : option Credential) (date : option Date)
    (fn : string) (fsz al ft st : number) :
  get_info v = Raise e →
  let v' := with_info v (Ok fallback_info) in
  let fallback (ev : Event) :=
    ∀ a, ev = EvDanmaku2ASS a →
         stage_width a = 1440%Z ∧ stage_height a = 1080%Z in
  let a := export_args (danmaku_temp E) out (1440, 1080)%Z fn fsz al ft st in
  (∀ w, make_ass_file_danmakus_xml E (OVideo v) page out cid fn fsz al ft st w
        = make_ass_file_danmakus_xml E (OVideo v') page out cid fn fsz al ft st w)
  ∧ (∀ w, make_ass_file_danmakus_protobuf E (OVideo v) page out cid
            credential date fn fsz al ft st w
          = make_ass_file_danmakus_protobuf E (OVideo v') page out cid
              credential date fn fsz al ft st w)
  ∧ logs_only fallback
      (make_ass_file_danmakus_xml E (OVideo v) page out cid fn fsz al ft st)
  ∧ logs_only fallback
      (make_ass_file_danmakus_protobuf E (OVideo v) page out cid
         credential date fn fsz al ft st)
  ∧ (∀ w cid' w1 x,
       resolve_cid v page cid w = (Ok cid', w1) →
       get_danmaku_xml v (if is_episode v then None else cid') = Ok x →
       let run :=
         make_ass_file_danmakus_xml E (OVideo v) page out cid fn fsz al ft st w in
       EvDanmaku2ASS a ∈ log run.2
       ∧ (run.1 = Ok tt ↔ ∃ ass, danmaku2ass_text E a x = Ok ass))
  ∧ (∀ w w0 cid' w1 ds,
       check_credential credential date w = (Ok tt, w0) →
       resolve_cid v page cid w0 = (Ok cid', w1) →
       get_danmakus v (if is_episode v then None else cid')
         (if is_episode v then None else date) = Ok ds →
       let run :=
         make_ass_file_danmakus_protobuf E (OVideo v) page out cid
           credential date fn fsz al ft st w in
       EvDanmaku2ASS a ∈ log run.2
       ∧ (run.1 = Ok tt ↔ ∃ ass, danmaku2ass_text E a (danmakus_xml ds) = Ok ass)).
Proof.
  intros Hinfo v' fallback a.
  pose proof (video_size_fallback v e Hinfo) as Hsize.
  assert (∀ ev, danmaku_event E (OVideo v) out fn fsz al ft st ev →
                fallback ev) as Hfallback.
  { intros ev Hev a' ->. inversion Hev. cbn [stage_size_of]. by rewrite Hsize. }
  repeat apply conj.
  - intros w. rewrite !make_xml_video_run. by rewrite Hsize.
  - intros w. rewrite !make_protobuf_run. by rewrite Hsize.
  - eapply logs_only_weaken; [apply Hfallback|apply make_xml_events].
  - eapply logs_only_weaken; [apply Hfallback|apply make_protobuf_events].
  - intros w cid' w1 x Hcid Hx run. unfold run.
    rewrite make_xml_video_run, Hcid. cbv zeta.
    rewrite Hx, xml_tail_run, Hsize. cbv zeta. fold a.
    destruct (danmaku2ass_text E a x) as [ass|e']; cbn [fst snd log].
    + split; [set_solver|]. split; eauto.
    + split; [set_solver|]. split; [done|]. by intros [? ?].
  - intros w w0 cid' w1 ds Hcred Hcid Hds run. unfold run.
    rewrite make_protobuf_run, Hcred, Hcid. cbv zeta.
    rewrite Hds, protobuf_tail_run, Hsize. cbv zeta. fold a.
    destruct (danmaku2ass_text E a _) as [ass|e']; cbn [fst snd log].
    + split; [set_solver|]. split; eauto.
    + split; [set_solver|]. split; [done|]. by intros [? ?].
Qed.

Lemma metadata_failure_falls_back_witness :
  get_info video_without_info
    = Raise {| exn_class := "TimeoutError"; exn_msg := "" |}
  ∧ (let a := export_args "/tmp/danmaku_temp.xml" "out.ass" (1440, 1080)%Z
                "Simsun" (PyFloat 25 0) (PyInt 1) (PyInt 7) (PyInt 5) in
     let run :=
       make_ass_file_danmakus_xml sample_collaborators
         (OVideo video_without_info) (Some 0%Z) "out.ass" None
         "Simsun" (PyFloat 25 0) (PyInt 1) (PyInt 7) (PyInt 5) empty_world in
     EvDanmaku2ASS a ∈ log run.2
     ∧ (run.1 = Ok tt
        ↔ ∃ ass, danmaku2ass_text sample_collaborators a
                   "<i><d>first</d><d>second</d></i>" = Ok ass)).
Proof.
  split; [reflexivity|].
  apply (proj1 (proj2 (proj2 (proj2 (proj2
           (metadata_failure_falls_back sample_collaborators video_without_info
              _ (Some 0%Z) "out.ass" None None None
              "Simsun" (PyFloat 25 0) (PyInt 1) (PyInt 7) (PyInt 5) eq_refl)))))
           empty_world (Some 1000%Z) (logged empty_world [EvGetPageId 0])
           "<i><d>first</d><d>second</d></i>");
    reflexivity.
Defined.

(** The run of the sample video without metadata, in full. *)
Example metadata_failure_run :
  let run :=
    make_ass_file_danmakus_protobuf sample_collaborators
      (OVideo video_without_info) None "out.ass" (Some 7%Z) None None
      "Simsun" (PyFloat 25 0) (PyInt 1) (PyInt 7) (PyInt 5) empty_world in
  run.1 = Ok tt
  ∧ log run.2
    = [EvGetInfo; EvGetDanmakus (Some 7%Z) None;
       EvOpenW "/tmp/danmaku_temp.xml";
       EvDanmaku2ASS
         {| input_files := "/tmp/danmaku_temp.xml"; input_format := "Bilibili";
            output_file := "out.ass";
            stage_width := 1440; stage_height := 1080; reserve_blank := 0;
            font_face := "Simsun"; font_size := PyFloat 25 0;
            text_opacity := PyInt 1; duration_marquee := PyInt 7;
            duration_still := PyInt 5 |}]
  ∧ fs run.2 !! "/tmp/danmaku_temp.xml"
    = Some "<i><d>first</d><d>second</d></i>".
Proof. by vm_compute. Qed.

(** C4.  [export_ass_from_json] runs two conversions in a row.  [json2srt]
    is the first call, from the JSON file to the intermediate path.  Only
    when it has completed is [srt2ass] called, on the intermediate file
    and to the output path; only when that has completed is the
    intermediate file removed.  The ASS text is the SRT-to-ASS conversion
    of the JSON-to-SRT conversion of the JSON text: no other converter is
    involved. *)
Theorem export_ass_from_json_two_stages
    (E : Collaborators) (file_local output_local : string) (w : World) :
  let srt_path := replace ".ass" ".srt" output_local in
  export_ass_from_json E file_local output_local w =
  match fs w !! file_local with
  | None =>
      (Raise (FileNotFoundError file_local),
       logged w [EvJson2srt file_local srt_path])
  | Some json =>
      match json2srt_text E json with
      | Raise e => (Raise e, logged w [EvJson2srt file_local srt_path])
      | Ok srt =>
          match srt2ass_text E "movie" srt with
          | Raise e =>
              (Raise e,
               {| fs := <[srt_path := srt]> (fs w);
                  log := log w ++ [EvJson2srt file_local srt_path;
                                   EvSrt2ass srt_path output_local "movie"] |})
          | Ok ass =>
              (Ok tt,
               {| fs := delete srt_path
                          (<[output_local := ass]> (<[srt_path := srt]> (fs w)));
                  log := log w ++ [EvJson2srt file_local srt_path;
                                   EvSrt2ass srt_path output_local "movie";
                                   EvRemove srt_path] |})
          end
      end
  end.
Proof.
  intros srt_path. unfold export_ass_from_json. fold srt_path.
  generalize srt_path. clear srt_path. intros srt_path.
  unfold mbind, M_bind. rewrite json2srt_run.
  destruct (fs w !! file_local) as [json|]; [|done].
  destruct (json2srt_text E json) as [srt|]; [|done].
  rewrite srt2ass_run. cbn [fs log]. rewrite lookup_insert_eq.
  destruct (srt2ass_text E "movie" srt) as [ass|].
  - rewrite os_remove_run. cbn [fs log]. rewrite <- !app_assoc.
    destruct (decide (output_local = srt_path)) as [->|Hne].
    + by rewrite lookup_insert_eq.
    + by rewrite lookup_insert_ne, lookup_insert_eq.
  - unfold logged. cbn [fs log]. by rewrite <- app_assoc.
Qed.



(** A video whose metadata give 0 by -1 is converted like any other. *)
Example degenerate_video_is_converted :
  let run :=
    make_ass_file_danmakus_xml sample_collaborators (OVideo degenerate_video)
      None "out.ass" (Some 7%Z)
      "Simsun" (PyFloat 25 0) (PyInt 1) (PyInt 7) (PyInt 5) empty_world in
  run.1 = Ok tt
  ∧ fs run.2 !! "out.ass" = Some "[Script Info] <i><d>first</d><d>second</d></i>".
Proof. by vm_compute. Qed.


(** C6, as the code has it.  The configuration that reaches [Danmaku2ASS]
    takes the stage width and height, the font name, the font size, the
    opacity and the two durations from the caller, and the blank reserve
    from the code: it is 0 in every call, also in the calls made through
    the two danmaku functions. *)
Theorem blank_reserve_is_fixed
    (E : Collaborators) (file_local output_local : string) (stage_size : Z * Z)
    (fn : string) (fsz al ft st : number) (w : World) :
  let a := export_args file_local output_local stage_size fn fsz al ft st in
  log (export_ass_from_xml E file_local output_local stage_size
         fn fsz al ft st w).2
    = log w ++ [EvDanmaku2ASS a]
  ∧ stage_width a = stage_size.1
  ∧ stage_height a = stage_size.2
  ∧ font_face a = fn
  ∧ font_size a = fsz
  ∧ text_opacity a = al
  ∧ duration_marquee a = ft
  ∧ duration_still a = st
  ∧ reserve_blank a = 0%Z
  ∧ (∀ obj page out cid,
       logs_only (λ ev, ∀ a', ev = EvDanmaku2ASS a' → reserve_blank a' = 0%Z)
         (make_ass_file_danmakus_xml E obj page out cid fn fsz al ft st))
  ∧ (∀ obj page out cid credential date,
       logs_only (λ ev, ∀ a', ev = EvDanmaku2ASS a' → reserve_blank a' = 0%Z)
         (make_ass_file_danmakus_protobuf E obj page out cid credential date
            fn fsz al ft st)).
Proof.
  intros a. repeat split.
  - apply export_ass_from_xml_log.
  - intros obj page out cid.
    eapply logs_only_weaken; [|apply make_xml_events].
    intros ev Hev a' ->. by inversion Hev.
  - intros obj page out cid credential date.
    eapply logs_only_weaken; [|apply make_protobuf_events].
    intros ev Hev a' ->. by inversion Hev.
Qed.

(** C6, as the claim has it: a caller who wants 10 pixels reserved at the
    bottom has no arguments to say so. *)
Lemma blank_reserve_not_caller_supplied :
  ¬ ∃ file_local output_local stage_size fn fsz al ft st a,
      EvDanmaku2ASS a ∈
        log (export_ass_from_xml sample_collaborators file_local output_local
               stage_size fn fsz al ft st sample_world).2
      ∧ reserve_blank a = 10%Z.
Proof.
  intros (fl & ol & ss & fn & fsz & al & ft & st & a & Hin & Ha).
  rewrite export_ass_from_xml_log in Hin. cbn in Hin.
  apply list_elem_of_singleton in Hin. injection Hin as ->. discriminate Ha.
Qed.

(** C8.  When [export_ass_from_json] returns, a file is left at the output
    path exactly when the output path contains [.ass].  Where it does not,
    the intermediate path is the output path itself, so the removal that
    ends the call removes the output. *)
Theorem export_ass_from_json_output_persists
    (E : Collaborators) (file_local output_local : string) (w w' : World) :
  export_ass_from_json E file_local output_local w = (Ok tt, w') →
  (contains ".ass" output_local = false →
     replace ".ass" ".srt" output_local = output_local
     ∧ EvRemove output_local ∈ log w'
     ∧ fs w' !! output_local = None)
  ∧ (is_Some (fs w' !! output_local) ↔ contains ".ass" output_local = true).
Proof.
  intros Hrun.
  destruct (export_ass_from_json_ok E _ _ _ _ Hrun)
    as (json & s & a & _ & _ & _ & ->). cbn [fs log].
  destruct (contains ".ass" output_local) eqn:Hc.
  - split; [done|]. split; [done|]. intros _.
    assert (replace ".ass" ".srt" output_local ≠ output_local) as Hne
      by by apply replace_present.
    rewrite lookup_delete_ne, lookup_insert_eq by done. eauto.
  - rewrite (replace_absent _ _ _ Hc), lookup_delete_eq.
    split; [|split; [|done]; by intros [? ?]].
    intros _. split; [done|]. split; [|done].
    rewrite elem_of_app. right. set_solver.
Qed.

Lemma export_ass_from_json_output_persists_witness :
  (contains ".ass" "subtitle" = false →
     replace ".ass" ".srt" "subtitle" = "subtitle"
     ∧ EvRemove "subtitle"
       ∈ log (export_ass_from_json sample_collaborators "sub.json" "subtitle"
                sample_world).2
     ∧ fs (export_ass_from_json sample_collaborators "sub.json" "subtitle"
             sample_world).2 !! "subtitle" = None)
  ∧ (is_Some (fs (export_ass_from_json sample_collaborators "sub.json" "subtitle"
                    sample_world).2 !! "subtitle")
     ↔ contains ".ass" "subtitle" = true).
Proof.
  apply (export_ass_from_json_output_persists sample_collaborators "sub.json"
           "subtitle" sample_world).
  by vm_compute.
Defined.

(** C9, as the code has it.  On a plain video with neither a page nor a
    cid, both functions raise before any danmaku is retrieved and before
    any file is written.  [make_ass_file_danmakus_xml] raises the
    arguments error at once.  [make_ass_file_danmakus_protobuf] first
    checks the credential when a date is given: when that check raises,
    its error is the one raised; otherwise the arguments error is. *)
Theorem missing_page_and_cid_raises
    (E : Collaborators) (v : Video) (out : string)
    (credential : option Credential) (date : option Date)
    (fn : string) (fsz al ft st : number) (w : World) :
  is_episode v = false →
  let args_error := ArgsException "page_index 和 cid 至少提供一个。" in
  make_ass_file_danmakus_xml E (OVideo v) None out None fn fsz al ft st w
    = (Raise args_error, w)
  ∧ ∃ e w',
      make_ass_file_danmakus_protobuf E (OVideo v) None out None
        credential date fn fsz al ft st w = (Raise e, w')
      ∧ fs w' = fs w
      ∧ (log w' = log w ∨ log w' = log w ++ [EvRaiseForNoSessdata])
      ∧ (e = args_error
         ∨ is_Some date ∧ check_credential credential date w = (Raise e, w'))
      ∧ (date = None
         ∨ (∃ c, credential = Some c ∧ raise_for_no_sessdata c = Ok tt) →
         e = args_error).
Proof.
  intros Hv args_error. split.
  - rewrite make_xml_video_run, resolve_cid_run. by rewrite Hv.
  - rewrite make_protobuf_run, check_credential_run.
    destruct date as [d|].
    + destruct credential as [c|].
      * destruct (raise_for_no_sessdata c) as [[]|e] eqn:Hc.
        -- rewrite resolve_cid_run, Hv. eexists _, _.
           split; [done|]. cbn. repeat split; eauto.
        -- eexists _, _. split; [done|]. cbn. repeat split; eauto.
           intros [|(c' & [= <-] & Hc')]; [done|congruence].
      * eexists _, _. split; [done|]. repeat split; eauto.
        intros [|(c' & ? & _)]; done.
    + rewrite resolve_cid_run, Hv. eexists _, _.
      split; [done|]. repeat split; eauto.
Qed.

Lemma missing_page_and_cid_raises_witness :
  is_episode sample_video = false
  ∧ make_ass_file_danmakus_xml sample_collaborators (OVideo sample_video)
      None "out.ass" None "Simsun" (PyFloat 25 0) (PyInt 1) (PyInt 7) (PyInt 5)
      empty_world
    = (Raise (ArgsException "page_index 和 cid 至少提供一个。"), empty_world).
Proof.
  split; [reflexivity|].
  exact (proj1 (missing_page_and_cid_raises sample_collaborators sample_video
                  "out.ass" None None
                  "Simsun" (PyFloat 25 0) (PyInt 1) (PyInt 7) (PyInt 5)
                  empty_world eq_refl)).
Defined.

(** C9, as the claim has it: with a date and a credential without
    SESSDATA, the error raised is the credential's, not the arguments
    error. *)
Lemma missing_page_and_cid_other_error :
  let r :=
    (make_ass_file_danmakus_protobuf sample_collaborators (OVideo sample_video)
       None "out.ass" None (Some anonymous_credential)
       (Some {| year := 2022; month := 1; day := 1 |})
       "Simsun" (PyFloat 25 0) (PyInt 1) (PyInt 7) (PyInt 5) empty_world).1 in
  is_episode sample_video = false
  ∧ r = Raise {| exn_class := "CredentialNoSessdataException"; exn_msg := "" |}
  ∧ r ≠ Raise (ArgsException "page_index 和 cid 至少提供一个。").
Proof. by vm_compute. Qed.



(** * More properties of the module *)

(** ** How the arguments of the danmaku functions are used *)

Ltac events_with tac :=
  log_norm;
  first [ eexists; split; [reflexivity|]
        | exists []; split; [by rewrite app_nil_r|] ];
  repeat match goal with
         | |- Forall _ [] => constructor
         | |- Forall _ (_ :: _) => constructor; [tac|]
         end.

Ltac event_facts := repeat split; intros; simplify_eq; done.

(** X1.  For an [Episode] the page and the cid are not used: the run is
    the same whatever they are, the page id is never asked for, and the
    danmaku are asked for without a cid and without a date. *)
Theorem episode_ignores_page_and_cid
    (E : Collaborators) (v : Video) (page page' : option Z) (out : string)
    (cid cid' : option Z) (credential : option Credential)
    (date : option Date) (fn : string) (fsz al ft st : number) :
  is_episode v = true →
  (∀ w, make_ass_file_danmakus_xml E (OVideo v) page out cid fn fsz al ft st w
        = make_ass_file_danmakus_xml E (OVideo v) page' out cid' fn fsz al ft st w)
  ∧ (∀ w, make_ass_file_danmakus_protobuf E (OVideo v) page out cid
            credential date fn fsz al ft st w
          = make_ass_file_danmakus_protobuf E (OVideo v) page' out cid'
              credential date fn fsz al ft st w)
  ∧ logs_only
      (λ ev, (∀ p, ev ≠ EvGetPageId p)
             ∧ (∀ c, ev = EvGetDanmakuXml c → c = None))
      (make_ass_file_danmakus_xml E (OVideo v) page out cid fn fsz al ft st)
  ∧ logs_only
      (λ ev, (∀ p, ev ≠ EvGetPageId p)
             ∧ (∀ c d, ev = EvGetDanmakus c d → c = None ∧ d = None))
      (make_ass_file_danmakus_protobuf E (OVideo v) page out cid
         credential date fn fsz al ft st).
Proof.
  intros Hv. repeat apply conj.
  - intros w. by rewrite !make_xml_video_run, !resolve_cid_run, Hv.
  - intros w. rewrite !make_protobuf_run.
    destruct (check_credential credential date w) as [[[]|e] w0]; [|done].
    by rewrite !resolve_cid_run, Hv.
  - intros w. rewrite make_xml_video_run, resolve_cid_run, Hv. cbv zeta.
    destruct (get_danmaku_xml v None); [|events_with event_facts].
    rewrite xml_tail_run. cbv zeta.
    destruct (danmaku2ass_text E _ _); events_with event_facts.
  - intros w. rewrite make_protobuf_run, check_credential_run.
    destruct date as [d|], credential as [cr|];
      try destruct (raise_for_no_sessdata cr) as [[]|];
      try (events_with event_facts).
    all: rewrite resolve_cid_run, Hv; cbv zeta.
    all: destruct (get_danmakus v None None); [|events_with event_facts].
    all: rewrite protobuf_tail_run; cbv zeta.
    all: destruct (danmaku2ass_text E _ _); events_with event_facts.
Qed.

Lemma episode_ignores_page_and_cid_witness :
  is_episode sample_episode = true
  ∧ make_ass_file_danmakus_xml sample_collaborators (OVideo sample_episode)
      None "out.ass" None "Simsun" (PyFloat 25 0) (PyInt 1) (PyInt 7) (PyInt 5)
      empty_world
    = make_ass_file_danmakus_xml sample_collaborators (OVideo sample_episode)
        (Some 3%Z) "out.ass" (Some 9%Z)
        "Simsun" (PyFloat 25 0) (PyInt 1) (PyInt 7) (PyInt 5) empty_world.
Proof.
  split; [reflexivity|].
  exact (proj1 (episode_ignores_page_and_cid sample_collaborators sample_episode
                  None (Some 3%Z) "out.ass" None (Some 9%Z) None None
                  "Simsun" (PyFloat 25 0) (PyInt 1) (PyInt 7) (PyInt 5) eq_refl)
           empty_world).
Defined.

Section Tails.

Context (E : Collaborators).

(** What the end of a danmaku function returns and leaves on disk depends
    on the files it starts from, not on the calls made before. *)
Lemma xml_tail_same_files x out size fn fsz al ft st w w' :
  fs w = fs w' →
  (xml_tail E x out size fn fsz al ft st w).1
    = (xml_tail E x out size fn fsz al ft st w').1
  ∧ fs (xml_tail E x out size fn fsz al ft st w).2
    = fs (xml_tail E x out size fn fsz al ft st w').2.
Proof.
  intros Hfs. rewrite !xml_tail_run. cbv zeta.
  destruct (danmaku2ass_text E _ _); cbn [fst snd fs]; by rewrite Hfs.
Qed.

Lemma protobuf_tail_same_files ds out size fn fsz al ft st w w' :
  fs w = fs w' →
  (protobuf_tail E ds out size fn fsz al ft st w).1
    = (protobuf_tail E ds out size fn fsz al ft st w').1
  ∧ fs (protobuf_tail E ds out size fn fsz al ft st w).2
    = fs (protobuf_tail E ds out size fn fsz al ft st w').2.
Proof.
  intros Hfs. rewrite !protobuf_tail_run. cbv zeta.
  destruct (danmaku2ass_text E _ _); cbn [fst snd fs]; by rewrite Hfs.
Qed.

End Tails.

(** X2.  For a course video the page and the cid are not used, and the
    date is used for the credential check only: once that check has
    passed, the call returns or raises the same, and leaves the same
    files, as the call without a date. *)
Theorem cheese_ignores_page_cid_and_date
    (E : Collaborators) (c : CheeseVideo) (page page' : option Z)
    (out : string) (cid cid' : option Z) (credential : option Credential)
    (date : option Date) (fn : string) (fsz al ft st : number) (w : World) :
  make_ass_file_danmakus_xml E (OCheese c) page out cid fn fsz al ft st w
    = make_ass_file_danmakus_xml E (OCheese c) page' out cid' fn fsz al ft st w
  ∧ make_ass_file_danmakus_protobuf E (OCheese c) page out cid
      credential date fn fsz al ft st w
    = make_ass_file_danmakus_protobuf E (OCheese c) page' out cid'
        credential date fn fsz al ft st w
  ∧ ((check_credential credential date w).1 = Ok tt →
     let with_date :=
       make_ass_file_danmakus_protobuf E (OCheese c) page out cid
         credential date fn fsz al ft st w in
     let without_date :=
       make_ass_file_danmakus_protobuf E (OCheese c) page out cid
         None None fn fsz al ft st w in
     with_date.1 = without_date.1 ∧ fs with_date.2 = fs without_date.2).
Proof.
  repeat apply conj.
  - by rewrite !make_xml_cheese_run.
  - by rewrite !make_protobuf_run.
  - intros Hcred with_date without_date. unfold with_date, without_date.
    rewrite !make_protobuf_run. rewrite check_credential_run in *.
    destruct date as [d|]; [|done].
    destruct credential as [cr|]; [|done]. cbn [fst] in Hcred.
    rewrite Hcred. cbn [check_credential mret M_ret].
    destruct (cheese_get_danmakus c) as [ds|e]; [|done].
    by apply protobuf_tail_same_files.
Qed.

Lemma cheese_ignores_page_cid_and_date_witness :
  (check_credential (Some logged_in_credential)
     (Some {| year := 2022; month := 1; day := 1 |}) empty_world).1 = Ok tt
  ∧ (make_ass_file_danmakus_protobuf sample_collaborators (OCheese sample_cheese)
       None "out.ass" None (Some logged_in_credential)
       (Some {| year := 2022; month := 1; day := 1 |})
       "Simsun" (PyFloat 25 0) (PyInt 1) (PyInt 7) (PyInt 5) empty_world).1
    = (make_ass_file_danmakus_protobuf sample_collaborators (OCheese sample_cheese)
         None "out.ass" None None None
         "Simsun" (PyFloat 25 0) (PyInt 1) (PyInt 7) (PyInt 5) empty_world).1.
Proof.
  split; [reflexivity|].
  apply (proj2 (proj2 (cheese_ignores_page_cid_and_date sample_collaborators
                         sample_cheese None None "out.ass" None None
                         (Some logged_in_credential)
                         (Some {| year := 2022; month := 1; day := 1 |})
                         "Simsun" (PyFloat 25 0) (PyInt 1) (PyInt 7) (PyInt 5)
                         empty_world))).
  reflexivity.
Defined.

(** X3.  For a plain video a given cid wins over the page: the run is the
    same whatever the page is, the page id is never asked for, and the
    danmaku are asked for with that cid (and, from [get_danmakus], with the
    date). *)
Theorem cid_takes_precedence
    (E : Collaborators) (v : Video) (c : Z) (page page' : option Z)
    (out : string) (credential : option Credential) (date : option Date)
    (fn : string) (fsz al ft st : number) :
  is_episode v = false →
  (∀ w, make_ass_file_danmakus_xml E (OVideo v) page out (Some c)
          fn fsz al ft st w
        = make_ass_file_danmakus_xml E (OVideo v) page' out (Some c)
            fn fsz al ft st w)
  ∧ (∀ w, make_ass_file_danmakus_protobuf E (OVideo v) page out (Some c)
            credential date fn fsz al ft st w
          = make_ass_file_danmakus_protobuf E (OVideo v) page' out (Some c)
              credential date fn fsz al ft st w)
  ∧ logs_only
      (λ ev, (∀ p, ev ≠ EvGetPageId p)
             ∧ (∀ c', ev = EvGetDanmakuXml c' → c' = Some c))
      (make_ass_file_danmakus_xml E (OVideo v) page out (Some c)
         fn fsz al ft st)
  ∧ logs_only
      (λ ev, (∀ p, ev ≠ EvGetPageId p)
             ∧ (∀ c' d, ev = EvGetDanmakus c' d → c' = Some c ∧ d = date))
      (make_ass_file_danmakus_protobuf E (OVideo v) page out (Some c)
         credential date fn fsz al ft st).
Proof.
  intros Hv. repeat apply conj.
  - intros w. by rewrite !make_xml_video_run, !resolve_cid_run, Hv.
  - intros w. rewrite !make_protobuf_run.
    destruct (check_credential credential date w) as [[[]|e] w0]; [|done].
    by rewrite !resolve_cid_run, Hv.
  - intros w. rewrite make_xml_video_run, resolve_cid_run, Hv. cbv zeta.
    destruct (get_danmaku_xml v (Some c)); [|events_with event_facts].
    rewrite xml_tail_run. cbv zeta.
    destruct (danmaku2ass_text E _ _); events_with event_facts.
  - intros w. rewrite make_protobuf_run, check_credential_run.
    destruct date as [d|], credential as [cr|];
      try destruct (raise_for_no_sessdata cr) as [[]|];
      try (events_with event_facts).
    all: rewrite resolve_cid_run, Hv; cbv zeta.
    all: destruct (get_danmakus v (Some c) _); [|events_with event_facts].
    all: rewrite protobuf_tail_run; cbv zeta.
    all: destruct (danmaku2ass_text E _ _); events_with event_facts.
Qed.

Lemma cid_takes_precedence_witness :
  is_episode sample_video = false
  ∧ make_ass_file_danmakus_xml sample_collaborators (OVideo sample_video)
      None "out.ass" (Some 9%Z)
      "Simsun" (PyFloat 25 0) (PyInt 1) (PyInt 7) (PyInt 5) empty_world
    = make_ass_file_danmakus_xml sample_collaborators (OVideo sample_video)
        (Some 3%Z) "out.ass" (Some 9%Z)
        "Simsun" (PyFloat 25 0) (PyInt 1) (PyInt 7) (PyInt 5) empty_world.
Proof.
  split; [reflexivity|].
  exact (proj1 (cid_takes_precedence sample_collaborators sample_video 9%Z
                  None (Some 3%Z) "out.ass" None None
                  "Simsun" (PyFloat 25 0) (PyInt 1) (PyInt 7) (PyInt 5) eq_refl)
           empty_world).
Defined.

(** X4.  For a plain video without a cid, the page is turned into a cid by
    [get_page_id_by_index]: the call returns or raises the same, and leaves
    the same files, as the call with that cid; and when the page id cannot
    be found the error is raised with no file changed. *)
Theorem page_resolves_to_cid
    (E : Collaborators) (v : Video) (p : Z) (out : string)
    (credential : option Credential) (date : option Date)
    (fn : string) (fsz al ft st : number) (w : World) :
  is_episode v = false →
  let by_page_xml :=
    make_ass_file_danmakus_xml E (OVideo v) (Some p) out None
      fn fsz al ft st w in
  let by_page_protobuf :=
    make_ass_file_danmakus_protobuf E (OVideo v) (Some p) out None
      credential date fn fsz al ft st w in
  match get_page_id_by_index v p with
  | Ok c =>
      let by_cid_xml :=
        make_ass_file_danmakus_xml E (OVideo v) None out (Some c)
          fn fsz al ft st w in
      let by_cid_protobuf :=
        make_ass_file_danmakus_protobuf E (OVideo v) None out (Some c)
          credential date fn fsz al ft st w in
      by_page_xml.1 = by_cid_xml.1
      ∧ fs by_page_xml.2 = fs by_cid_xml.2
      ∧ by_page_protobuf.1 = by_cid_protobuf.1
      ∧ fs by_page_protobuf.2 = fs by_cid_protobuf.2
  | Raise e =>
      by_page_xml = (Raise e, logged w [EvGetPageId p])
      ∧ fs by_page_protobuf.2 = fs w
      ∧ ((check_credential credential date w).1 = Ok tt →
         by_page_protobuf.1 = Raise e)
  end.
Proof.
  intros Hv by_page_xml by_page_protobuf.
  unfold by_page_xml, by_page_protobuf.
  destruct (get_page_id_by_index v p) as [c|e] eqn:Hp; cbv zeta.
  - rewrite !make_xml_video_run, !make_protobuf_run, !resolve_cid_run, Hv, Hp.
    cbv zeta. repeat apply conj.
    + destruct (get_danmaku_xml v (Some c)); [|done].
      by apply xml_tail_same_files.
    + destruct (get_danmaku_xml v (Some c)); [|done].
      by apply xml_tail_same_files.
    + destruct (check_credential credential date w) as [[[]|e] w0]; [|done].
      rewrite !resolve_cid_run, Hv, Hp. cbv zeta.
      destruct (get_danmakus v (Some c) date); [|done].
      by apply protobuf_tail_same_files.
    + destruct (check_credential credential date w) as [[[]|e] w0]; [|done].
      rewrite !resolve_cid_run, Hv, Hp. cbv zeta.
      destruct (get_danmakus v (Some c) date); [|done].
      by apply protobuf_tail_same_files.
  - rewrite make_xml_video_run, make_protobuf_run, resolve_cid_run, Hv, Hp.
    rewrite check_credential_run. repeat apply conj; [done| |].
    + destruct date as [d|], credential as [cr|];
        try destruct (raise_for_no_sessdata cr) as [[]|];
        rewrite ?resolve_cid_run, ?Hv, ?Hp; done.
    + destruct date as [d|], credential as [cr|];
        try destruct (raise_for_no_sessdata cr) as [[]|];
        rewrite ?resolve_cid_run, ?Hv, ?Hp; done.
Qed.

Lemma page_resolves_to_cid_witness :
  is_episode sample_video = false
  ∧ get_page_id_by_index sample_video 2 = Ok 1002%Z
  ∧ (make_ass_file_danmakus_xml sample_collaborators (OVideo sample_video)
       (Some 2%Z) "out.ass" None
       "Simsun" (PyFloat 25 0) (PyInt 1) (PyInt 7) (PyInt 5) empty_world).1
    = (make_ass_file_danmakus_xml sample_collaborators (OVideo sample_video)
         None "out.ass" (Some 1002%Z)
         "Simsun" (PyFloat 25 0) (PyInt 1) (PyInt 7) (PyInt 5) empty_world).1.
Proof.
  split; [reflexivity|]. split; [reflexivity|].
  exact (proj1 (page_resolves_to_cid sample_collaborators sample_video 2
                  "out.ass" None None
                  "Simsun" (PyFloat 25 0) (PyInt 1) (PyInt 7) (PyInt 5)
                  empty_world eq_refl)).
Defined.

(** X5.  [make_ass_file_danmakus_protobuf] looks at the credential only
    when a date is given, and then before anything else, for every kind of
    object: without a date the run is the same for every credential; with
    a date and no credential the call raises [AttributeError] with nothing
    called and nothing written; with a date and a credential whose check
    fails the error of the check is raised, with no other call made and
    nothing written. *)
Theorem credential_checked_first_and_only_with_date
    (E : Collaborators) (obj : Obj) (page : option Z) (out : string)
    (cid : option Z) (credential credential' : option Credential)
    (d : Date) (c : Credential) (fn : string) (fsz al ft st : number)
    (w : World) :
  make_ass_file_danmakus_protobuf E obj page out cid credential None
    fn fsz al ft st w
  = make_ass_file_danmakus_protobuf E obj page out cid credential' None
      fn fsz al ft st w
  ∧ make_ass_file_danmakus_protobuf E obj page out cid None (Some d)
      fn fsz al ft st w
    = (Raise (AttributeError
                "'NoneType' object has no attribute 'raise_for_no_sessdata'"),
       w)
  ∧ (∀ e, raise_for_no_sessdata c = Raise e →
          make_ass_file_danmakus_protobuf E obj page out cid (Some c) (Some d)
            fn fsz al ft st w
          = (Raise e, logged w [EvRaiseForNoSessdata])).
Proof.
  repeat apply conj.
  - by rewrite !make_protobuf_run.
  - by rewrite make_protobuf_run.
  - intros e He. by rewrite make_protobuf_run, check_credential_run, He.
Qed.

Lemma credential_checked_first_and_only_with_date_witness :
  raise_for_no_sessdata anonymous_credential
    = Raise {| exn_class := "CredentialNoSessdataException"; exn_msg := "" |}
  ∧ make_ass_file_danmakus_protobuf sample_collaborators (OCheese sample_cheese)
      None "out.ass" None (Some anonymous_credential)
      (Some {| year := 2022; month := 1; day := 1 |})
      "Simsun" (PyFloat 25 0) (PyInt 1) (PyInt 7) (PyInt 5) empty_world
    = (Raise {| exn_class := "CredentialNoSessdataException"; exn_msg := "" |},
       logged empty_world [EvRaiseForNoSessdata]).
Proof.
  split; [reflexivity|].
  apply (proj2 (proj2 (credential_checked_first_and_only_with_date
                         sample_collaborators (OCheese sample_cheese)
                         None "out.ass" None None None
                         {| year := 2022; month := 1; day := 1 |}
                         anonymous_credential
                         "Simsun" (PyFloat 25 0) (PyInt 1) (PyInt 7) (PyInt 5)
                         empty_world))).
  reflexivity.
Defined.

(** ** What the danmaku functions write *)

Section Written.

Context (E : Collaborators).

Lemma check_credential_fs credential date w :
  fs (check_credential credential date w).2 = fs w.
Proof.
  rewrite check_credential_run.
  by destruct date, credential.
Qed.

Lemma resolve_cid_fs v page cid w :
  fs (resolve_cid v page cid w).2 = fs w.
Proof.
  rewrite resolve_cid_run. destruct (is_episode v); [done|].
  destruct cid, page; try done. by destruct (get_page_id_by_index v _).
Qed.

(** A normal return of [make_ass_file_danmakus_xml]. *)
Lemma make_xml_returns obj page out cid fn fsz al ft st w w' :
  make_ass_file_danmakus_xml E obj page out cid fn fsz al ft st w = (Ok tt, w') →
  ∃ x ass,
    xml_of obj x
    ∧ danmaku2ass_text E
        (export_args (danmaku_temp E) out (stage_size_of obj) fn fsz al ft st) x
      = Ok ass
    ∧ fs w' = <[out := ass]> (<[danmaku_temp E := x]> (fs w)).
Proof.
  destruct obj as [v|c].
  - rewrite make_xml_video_run.
    pose proof (resolve_cid_fs v page cid w) as Hfs.
    destruct (resolve_cid v page cid w) as [[cid'|e] w1]; [|done]. cbv zeta.
    destruct (get_danmaku_xml v _) as [x|] eqn:Hx; [|done].
    rewrite xml_tail_run. cbv zeta.
    destruct (danmaku2ass_text E _ x) as [ass|] eqn:Hass; [|done].
    intros [= <-]. exists x, ass. cbn [fs logged snd] in *. rewrite Hfs.
    repeat split; [by eexists|done].
  - rewrite make_xml_cheese_run.
    destruct (cheese_get_danmaku_xml c) as [x|] eqn:Hx; [|done].
    rewrite xml_tail_run. cbv zeta.
    destruct (danmaku2ass_text E _ x) as [ass|] eqn:Hass; [|done].
    intros [= <-]. by exists x, ass.
Qed.

(** A normal return of [make_ass_file_danmakus_protobuf]. *)
Lemma make_protobuf_returns
    obj page out cid credential date fn fsz al ft st w w' :
  make_ass_file_danmakus_protobuf E obj page out cid credential date
    fn fsz al ft st w = (Ok tt, w') →
  ∃ ds ass,
    danmakus_of obj ds
    ∧ danmaku2ass_text E
        (export_args (danmaku_temp E) out (stage_size_of obj) fn fsz al ft st)
        (danmakus_xml ds)
      = Ok ass
    ∧ fs w' = <[out := ass]> (<[danmaku_temp E := danmakus_xml ds]> (fs w)).
Proof.
  rewrite make_protobuf_run.
  pose proof (check_credential_fs credential date w) as Hfs0.
  destruct (check_credential credential date w) as [[[]|e] w0]; [|done].
  destruct obj as [v|c].
  - pose proof (resolve_cid_fs v page cid w0) as Hfs.
    destruct (resolve_cid v page cid w0) as [[cid'|e] w1]; [|done]. cbv zeta.
    destruct (get_danmakus v _ _) as [ds|] eqn:Hds; [|done].
    rewrite protobuf_tail_run. cbv zeta.
    destruct (danmaku2ass_text E _ _) as [ass|] eqn:Hass; [|done].
    intros [= <-]. exists ds, ass. cbn [fs logged snd] in *.
    rewrite Hfs, Hfs0. repeat split; [by eexists _, _|done].
  - destruct (cheese_get_danmakus c) as [ds|] eqn:Hds; [|done].
    rewrite protobuf_tail_run. cbv zeta.
    destruct (danmaku2ass_text E _ _) as [ass|] eqn:Hass; [|done].
    intros [= <-]. exists ds, ass. cbn [fs logged snd] in *.
    by rewrite Hfs0.
Qed.

End Written.

Lemma string_app_nil_r (a : string) : a +:+ "" = a.
Proof. induction a as [|c a IH]; [done|]. rewrite string_app_cons. by f_equal. Qed.

Lemma concat_cons (x : string) (xs : list string) :
  String.concat "" (x :: xs) = x +:+ String.concat "" xs.
Proof. destruct xs; cbn [String.concat]; by rewrite ?string_app_nil_r. Qed.

(** The text written for a list of danmaku is the opening tag, the XML of
    each danmaku in the order of the list, and the closing tag. *)
Lemma danmakus_xml_concat (ds : list Danmaku) :
  danmakus_xml ds = "<i>" +:+ String.concat "" (map to_xml ds) +:+ "</i>".
Proof.
  unfold danmakus_xml. f_equal.
  induction ds as [|d ds IH]; [done|].
  cbn [foldr map]. by rewrite IH, concat_cons, string_app_assoc.
Qed.

Ltac opened_temp Hlog Hno :=
  unfold logged in Hlog; cbn [fs log fst snd] in Hlog;
  rewrite <- ?app_assoc in Hlog; cbn [app] in Hlog;
  apply app_inv_head in Hlog; subst;
  exfalso; apply Hno; set_solver.

(** X6.  Whatever fails before the temporary file is opened (the
    credential check, the arguments, the page id, the retrieval of the
    danmaku) leaves every file as it was: a run of a danmaku function that
    does not open the temporary file ends in an error and changes no
    file. *)
Theorem nothing_written_before_the_temporary_file
    (E : Collaborators) (obj : Obj) (page : option Z) (out : string)
    (cid : option Z) (credential : option Credential) (date : option Date)
    (fn : string) (fsz al ft st : number) (w : World) (evs : list Event) :
  let run_xml :=
    make_ass_file_danmakus_xml E obj page out cid fn fsz al ft st w in
  let run_protobuf :=
    make_ass_file_danmakus_protobuf E obj page out cid credential date
      fn fsz al ft st w in
  EvOpenW (danmaku_temp E) ∉ evs →
  (log run_xml.2 = log w ++ evs →
   fs run_xml.2 = fs w ∧ ∃ e, run_xml.1 = Raise e)
  ∧ (log run_protobuf.2 = log w ++ evs →
     fs run_protobuf.2 = fs w ∧ ∃ e, run_protobuf.1 = Raise e).
Proof.
  intros run_xml run_protobuf Hno. unfold run_xml, run_protobuf. split.
  - destruct obj as [v|c].
    + rewrite make_xml_video_run, resolve_cid_run. cbv zeta.
      destruct (is_episode v);
        [|destruct cid as [c|], page as [p|];
          try destruct (get_page_id_by_index v p)];
        try (intros _; split; [done|by eexists]).
      all: destruct (get_danmaku_xml v _);
        [|intros _; split; [done|by eexists]].
      all: rewrite xml_tail_run; cbv zeta.
      all: destruct (danmaku2ass_text E _ _); intros Hlog;
        opened_temp Hlog Hno.
    + rewrite make_xml_cheese_run.
      destruct (cheese_get_danmaku_xml c);
        [|intros _; split; [done|by eexists]].
      rewrite xml_tail_run. cbv zeta.
      destruct (danmaku2ass_text E _ _); intros Hlog; opened_temp Hlog Hno.
  - rewrite make_protobuf_run, check_credential_run.
    destruct date as [d|], credential as [cr|];
      try destruct (raise_for_no_sessdata cr) as [[]|];
      try (intros _; split; [done|by eexists]).
    all: destruct obj as [v|c].
    all: try (rewrite resolve_cid_run; cbv zeta; destruct (is_episode v);
              [|destruct cid as [c|], page as [p|];
                try destruct (get_page_id_by_index v p)]).
    all: try (intros _; split; [done|by eexists]).
    all: try (destruct (get_danmakus v _ _);
              [|intros _; split; [done|by eexists]]).
    all: try (destruct (cheese_get_danmakus c);
              [|intros _; split; [done|by eexists]]).
    all: rewrite protobuf_tail_run; cbv zeta.
    all: destruct (danmaku2ass_text E _ _); intros Hlog; opened_temp Hlog Hno.
Qed.

Lemma nothing_written_before_the_temporary_file_witness :
  let run :=
    make_ass_file_danmakus_xml sample_collaborators
      (OVideo video_without_danmaku) (Some 1%Z) "danmaku.xml" None
      "Simsun" (PyFloat 25 0) (PyInt 1) (PyInt 7) (PyInt 5) sample_world in
  fs run.2 = fs sample_world ∧ ∃ e, run.1 = Raise e.
Proof.
  refine (proj1 (nothing_written_before_the_temporary_file sample_collaborators
                   (OVideo video_without_danmaku) (Some 1%Z) "danmaku.xml" None
                   None None "Simsun" (PyFloat 25 0) (PyInt 1) (PyInt 7) (PyInt 5)
                   sample_world
                   [EvGetPageId 1; EvGetInfo; EvGetDanmakuXml (Some 1001%Z)]
                   _) _).
  - intros H. repeat (apply elem_of_cons in H as [H|H]; [discriminate H|]).
    by apply elem_of_nil in H.
  - reflexivity.
Defined.

(** X7.  [make_ass_file_danmakus_protobuf] hands the converter a temporary
    file that holds the opening tag [<i>], the XML of every retrieved
    danmaku in the order of the list, and the closing tag [</i>], and
    nothing else; what was in the file before is gone. *)
Theorem protobuf_writes_the_danmaku_in_order
    (E : Collaborators) (page : option Z) (out : string) (cid : option Z)
    (credential : option Credential) (date : option Date)
    (fn : string) (fsz al ft st : number) (ds : list Danmaku) (w w0 : World) :
  check_credential credential date w = (Ok tt, w0) →
  let text := "<i>" +:+ String.concat "" (map to_xml ds) +:+ "</i>" in
  (∀ c,
     cheese_get_danmakus c = Ok ds →
     make_ass_file_danmakus_protobuf E (OCheese c) page out cid
       credential date fn fsz al ft st w
     = export_ass_from_xml E (danmaku_temp E) out (1440, 1080)%Z
         fn fsz al ft st
         {| fs := <[danmaku_temp E := text]> (fs w0);
            log := log w0 ++ [EvGetDanmakus None None;
                              EvOpenW (danmaku_temp E)] |})
  ∧ (∀ v cid' w1,
       resolve_cid v page cid w0 = (Ok cid', w1) →
       let cid_arg := if is_episode v then None else cid' in
       let date_arg := if is_episode v then None else date in
       get_danmakus v cid_arg date_arg = Ok ds →
       make_ass_file_danmakus_protobuf E (OVideo v) page out cid
         credential date fn fsz al ft st w
       = export_ass_from_xml E (danmaku_temp E) out (video_size v)
           fn fsz al ft st
           {| fs := <[danmaku_temp E := text]> (fs w1);
              log := log w1 ++ [EvGetInfo; EvGetDanmakus cid_arg date_arg;
                                EvOpenW (danmaku_temp E)] |}).
Proof.
  intros Hcred text. unfold text. rewrite <- danmakus_xml_concat. split.
  - intros c Hds. rewrite make_protobuf_run, Hcred, Hds.
    unfold protobuf_tail. rewrite write_danmakus_and_export_run.
    unfold logged. cbn [fs log]. by rewrite <- app_assoc.
  - intros v cid' w1 Hcid. cbv zeta. intros Hds.
    rewrite make_protobuf_run, Hcred, Hcid. cbv zeta. rewrite Hds.
    unfold protobuf_tail. rewrite write_danmakus_and_export_run.
    unfold logged. cbn [fs log]. by rewrite <- app_assoc.
Qed.

Lemma protobuf_writes_the_danmaku_in_order_witness :
  check_credential None None empty_world = (Ok tt, empty_world)
  ∧ cheese_get_danmakus sample_cheese = Ok [ {| to_xml := "<d>lesson</d>" |} ]
  ∧ make_ass_file_danmakus_protobuf sample_collaborators (OCheese sample_cheese)
      None "out.ass" None None None
      "Simsun" (PyFloat 25 0) (PyInt 1) (PyInt 7) (PyInt 5) empty_world
    = export_ass_from_xml sample_collaborators "/tmp/danmaku_temp.xml" "out.ass"
        (1440, 1080)%Z "Simsun" (PyFloat 25 0) (PyInt 1) (PyInt 7) (PyInt 5)
        {| fs := <["/tmp/danmaku_temp.xml" := "<i><d>lesson</d></i>"]> ∅;
           log := [EvGetDanmakus None None; EvOpenW "/tmp/danmaku_temp.xml"] |}.
Proof.
  split; [reflexivity|]. split; [reflexivity|].
  exact (proj1 (protobuf_writes_the_danmaku_in_order sample_collaborators
                  None "out.ass" None None None
                  "Simsun" (PyFloat 25 0) (PyInt 1) (PyInt 7) (PyInt 5)
                  [ {| to_xml := "<d>lesson</d>" |} ] empty_world empty_world
                  eq_refl)
           sample_cheese eq_refl).
Defined.

(** X8.  The two danmaku functions agree.  When the object answers
    [get_danmaku_xml] with the XML text of the danmaku it answers
    [get_danmakus] with, [make_ass_file_danmakus_xml] and
    [make_ass_file_danmakus_protobuf] without a date return or raise the
    same and leave the same files. *)
Theorem xml_and_protobuf_agree
    (E : Collaborators) (obj : Obj) (page : option Z) (out : string)
    (cid : option Z) (credential : option Credential)
    (fn : string) (fsz al ft st : number) (w : World) :
  same_comments obj →
  let from_xml :=
    make_ass_file_danmakus_xml E obj page out cid fn fsz al ft st w in
  let from_protobuf :=
    make_ass_file_danmakus_protobuf E obj page out cid credential None
      fn fsz al ft st w in
  from_xml.1 = from_protobuf.1 ∧ fs from_xml.2 = fs from_protobuf.2.
Proof.
  intros Hsame from_xml from_protobuf. unfold from_xml, from_protobuf.
  rewrite make_protobuf_run. cbn [check_credential mret M_ret].
  destruct obj as [v|c]; cbn [same_comments] in Hsame.
  - rewrite make_xml_video_run.
    destruct (resolve_cid v page cid w) as [[cid'|e] w1]; [|done]. cbv zeta.
    replace (if is_episode v then None else @None Date) with (@None Date)
      by by destruct (is_episode v).
    rewrite Hsame.
    destruct (get_danmakus v _ None) as [ds|e]; [|done]. cbn [wrap_result].
    rewrite xml_tail_run, protobuf_tail_run. cbv zeta.
    by destruct (danmaku2ass_text E _ _).
  - rewrite make_xml_cheese_run, Hsame.
    destruct (cheese_get_danmakus c) as [ds|e]; [|done]. cbn [wrap_result].
    rewrite xml_tail_run, protobuf_tail_run. cbv zeta.
    by destruct (danmaku2ass_text E _ _).
Qed.

Lemma xml_and_protobuf_agree_witness :
  same_comments (OCheese sample_cheese)
  ∧ (make_ass_file_danmakus_xml sample_collaborators (OCheese sample_cheese)
       None "out.ass" None
       "Simsun" (PyFloat 25 0) (PyInt 1) (PyInt 7) (PyInt 5) empty_world).1
    = (make_ass_file_danmakus_protobuf sample_collaborators (OCheese sample_cheese)
         None "out.ass" None None None
         "Simsun" (PyFloat 25 0) (PyInt 1) (PyInt 7) (PyInt 5) empty_world).1.
Proof.
  split; [reflexivity|].
  exact (proj1 (xml_and_protobuf_agree sample_collaborators (OCheese sample_cheese)
                  None "out.ass" None None
                  "Simsun" (PyFloat 25 0) (PyInt 1) (PyInt 7) (PyInt 5)
                  empty_world eq_refl)).
Defined.

(** X9.  When a danmaku function returns, it has written two files and
    changed no other: the temporary file holds the retrieved comments (the
    XML text, or the XML text of the danmaku list), and the output file
    holds what the converter made of that text at the stage size of the
    object.  (The converter is taken to write its output file only.) *)
Theorem danmaku_functions_write_two_files
    (E : Collaborators) (obj : Obj) (page : option Z) (out : string)
    (cid : option Z) (credential : option Credential) (date : option Date)
    (fn : string) (fsz al ft st : number) (w w' : World) :
  let a :=
    export_args (danmaku_temp E) out (stage_size_of obj) fn fsz al ft st in
  (make_ass_file_danmakus_xml E obj page out cid fn fsz al ft st w
     = (Ok tt, w') →
   ∃ x ass,
     xml_of obj x
     ∧ danmaku2ass_text E a x = Ok ass
     ∧ fs w' = <[out := ass]> (<[danmaku_temp E := x]> (fs w)))
  ∧ (make_ass_file_danmakus_protobuf E obj page out cid credential date
       fn fsz al ft st w = (Ok tt, w') →
     ∃ ds ass,
       danmakus_of obj ds
       ∧ danmaku2ass_text E a (danmakus_xml ds) = Ok ass
       ∧ fs w' = <[out := ass]> (<[danmaku_temp E := danmakus_xml ds]> (fs w))).
Proof.
  intros a. split.
  - apply make_xml_returns.
  - apply make_protobuf_returns.
Qed.

Lemma danmaku_functions_write_two_files_witness :
  ∃ x ass,
    xml_of (OVideo sample_video) x
    ∧ danmaku2ass_text sample_collaborators
        (export_args "/tmp/danmaku_temp.xml" "out.ass" (1920, 1080)%Z
           "Simsun" (PyFloat 25 0) (PyInt 1) (PyInt 7) (PyInt 5)) x = Ok ass
    ∧ fs (make_ass_file_danmakus_xml sample_collaborators (OVideo sample_video)
            (Some 0%Z) "out.ass" None
            "Simsun" (PyFloat 25 0) (PyInt 1) (PyInt 7) (PyInt 5) sample_world).2
      = <["out.ass" := ass]> (<["/tmp/danmaku_temp.xml" := x]> (fs sample_world)).
Proof.
  apply (proj1 (danmaku_functions_write_two_files sample_collaborators
                  (OVideo sample_video) (Some 0%Z) "out.ass" None None None
                  "Simsun" (PyFloat 25 0) (PyInt 1) (PyInt 7) (PyInt 5)
                  sample_world _)).
  reflexivity.
Defined.

(** X10.  Two calls of [make_ass_file_danmakus_xml] one after the other,
    with different output paths neither of which is the temporary file:
    when both have returned, each output file holds the conversion of the
    comments of its own object, and the temporary file holds the comments
    of the second.  (The converter is taken to write its output file
    only.) *)
Theorem sequential_calls_keep_both_outputs
    (E : Collaborators) (obj1 obj2 : Obj) (page1 page2 : option Z)
    (out1 out2 : string) (cid1 cid2 : option Z)
    (fn : string) (fsz al ft st : number) (w w1 w2 : World) :
  make_ass_file_danmakus_xml E obj1 page1 out1 cid1 fn fsz al ft st w
    = (Ok tt, w1) →
  make_ass_file_danmakus_xml E obj2 page2 out2 cid2 fn fsz al ft st w1
    = (Ok tt, w2) →
  out1 ≠ out2 → out1 ≠ danmaku_temp E → out2 ≠ danmaku_temp E →
  ∃ x1 ass1 x2 ass2,
    xml_of obj1 x1 ∧ xml_of obj2 x2
    ∧ danmaku2ass_text E
        (export_args (danmaku_temp E) out1 (stage_size_of obj1) fn fsz al ft st)
        x1 = Ok ass1
    ∧ danmaku2ass_text E
        (export_args (danmaku_temp E) out2 (stage_size_of obj2) fn fsz al ft st)
        x2 = Ok ass2
    ∧ fs w2 !! out1 = Some ass1
    ∧ fs w2 !! out2 = Some ass2
    ∧ fs w2 !! danmaku_temp E = Some x2.
Proof.
  intros Hrun1 Hrun2 Hout H1 H2.
  apply make_xml_returns in Hrun1 as (x1 & ass1 & Hx1 & Hass1 & Hfs1).
  apply make_xml_returns in Hrun2 as (x2 & ass2 & Hx2 & Hass2 & Hfs2).
  exists x1, ass1, x2, ass2. rewrite Hfs2, Hfs1.
  repeat split; try done.
  - by rewrite !lookup_insert_ne, lookup_insert_eq by done.
  - by rewrite lookup_insert_eq.
  - by rewrite lookup_insert_ne, lookup_insert_eq by done.
Qed.

Lemma sequential_calls_keep_both_outputs_witness :
  let run1 :=
    make_ass_file_danmakus_xml sample_collaborators (OVideo sample_video)
      (Some 0%Z) "video.ass" None
      "Simsun" (PyFloat 25 0) (PyInt 1) (PyInt 7) (PyInt 5) empty_world in
  let run2 :=
    make_ass_file_danmakus_xml sample_collaborators (OCheese sample_cheese)
      None "lesson.ass" None
      "Simsun" (PyFloat 25 0) (PyInt 1) (PyInt 7) (PyInt 5) run1.2 in
  ∃ x1 ass1 x2 ass2,
    xml_of (OVideo sample_video) x1 ∧ xml_of (OCheese sample_cheese) x2
    ∧ danmaku2ass_text sample_collaborators
        (export_args "/tmp/danmaku_temp.xml" "video.ass" (1920, 1080)%Z
           "Simsun" (PyFloat 25 0) (PyInt 1) (PyInt 7) (PyInt 5)) x1 = Ok ass1
    ∧ danmaku2ass_text sample_collaborators
        (export_args "/tmp/danmaku_temp.xml" "lesson.ass" (1440, 1080)%Z
           "Simsun" (PyFloat 25 0) (PyInt 1) (PyInt 7) (PyInt 5)) x2 = Ok ass2
    ∧ fs run2.2 !! "video.ass" = Some ass1
    ∧ fs run2.2 !! "lesson.ass" = Some ass2
    ∧ fs run2.2 !! "/tmp/danmaku_temp.xml" = Some x2.
Proof.
  intros run1 run2.
  apply (sequential_calls_keep_both_outputs sample_collaborators
           (OVideo sample_video) (OCheese sample_cheese) (Some 0%Z) None
           "video.ass" "lesson.ass" None None
           "Simsun" (PyFloat 25 0) (PyInt 1) (PyInt 7) (PyInt 5)
           empty_world run1.2 run2.2);
    try reflexivity; discriminate.
Defined.

(** ** More on the subtitle functions *)

Lemma no_request_filter (evs : list Event) :
  Forall (λ ev, is_request ev = false) evs → List.filter is_request evs = [].
Proof.
  induction 1 as [|ev evs Hev _ IH]; [done|]. cbn. by rewrite Hev.
Qed.

(** X11.  [make_ass_file_subtitle] makes at most one request, and only for
    the first entry of the track list that has the requested name: a GET of
    its [subtitle_url].  No other entry is ever requested. *)
Theorem subtitle_requests_only_the_first_match
    (E : Collaborators) (obj : Video) (out name : string)
    (credential : option Credential) (w : World) (evs : list Event) :
  log (make_ass_file_subtitle E obj out name credential w).2 = log w ++ evs →
  (length (List.filter is_request evs) ≤ 1)%nat
  ∧ ∀ method url,
      EvRequest method url ∈ evs →
      method = "GET"
      ∧ ∃ info pre s post,
          get_info obj = Ok info
          ∧ subtitle_list info = pre ++ s :: post
          ∧ (∀ t, t ∈ pre → lan_doc t ≠ name)
          ∧ lan_doc s = name
          ∧ url = subtitle_url s.
Proof.
  rewrite make_ass_file_subtitle_run.
  destruct (get_info obj) as [info|e] eqn:Hinfo.
  - destruct (first_match name (subtitle_list info))
      as [Hnone|(pre & s & post & Hl & Hpre & Hs)].
    + rewrite subtitle_loop_no_match by done. cbn [snd logged log].
      intros <-%app_inv_head. split; [cbn; lia|].
      intros method url Hin. apply list_elem_of_singleton in Hin. discriminate.
    + rewrite Hl, subtitle_loop_first_match, download_and_convert_run by done.
      assert (∀ method url, EvRequest method url = EvRequest "GET" (subtitle_url s) →
                method = "GET"
                ∧ ∃ info' pre' s' post',
                    Ok info = Ok info'
                    ∧ subtitle_list info' = pre' ++ s' :: post'
                    ∧ (∀ t, t ∈ pre' → lan_doc t ≠ name)
                    ∧ lan_doc s' = name ∧ url = subtitle_url s') as Hfound.
      { intros method url [= -> ->]. split; [done|].
        exists info, pre, s, post. repeat split; try done.
        by apply Forall_forall. }
      destruct (request E "GET" (subtitle_url s)) as [content|e].
      * destruct (export_ass_from_json_logs E (λ ev, is_request ev = false)
                    (subtitle_temp E) out eq_refl eq_refl eq_refl
                    {| fs := <[subtitle_temp E := content]> (fs (logged w [EvGetInfo]));
                       log := log (logged w [EvGetInfo])
                              ++ [EvRequest "GET" (subtitle_url s);
                                  EvOpenW (subtitle_temp E)] |})
          as (evs' & -> & Hevs').
        cbn [log logged]. rewrite <- !app_assoc. cbn [app].
        intros <-%app_inv_head. split.
        -- cbn. by rewrite no_request_filter.
        -- intros method url Hin.
           apply elem_of_cons in Hin as [[=]|Hin].
           apply elem_of_cons in Hin as [Hin|Hin]; [by apply Hfound|].
           apply elem_of_cons in Hin as [[=]|Hin].
           rewrite Forall_forall in Hevs'. by apply Hevs' in Hin.
      * cbn [snd logged log]. rewrite <- !app_assoc. cbn [app].
        intros <-%app_inv_head. split; [cbn; lia|].
        intros method url Hin.
        apply elem_of_cons in Hin as [[=]|Hin].
        apply list_elem_of_singleton in Hin. by apply Hfound.
  - cbn [snd logged log]. intros <-%app_inv_head. split; [cbn; lia|].
    intros method url Hin. apply list_elem_of_singleton in Hin. discriminate.
Qed.

Lemma subtitle_requests_only_the_first_match_witness :
  (length (List.filter is_request
             [EvGetInfo; EvRequest "GET" "https://example.org/en.json";
              EvOpenW "/tmp/subtitle.json";
              EvJson2srt "/tmp/subtitle.json" "out.srt";
              EvSrt2ass "out.srt" "out.ass" "movie"; EvRemove "out.srt"]) ≤ 1)%nat.
Proof.
  apply (proj1 (subtitle_requests_only_the_first_match sample_collaborators
                  sample_video "out.ass" "English" None empty_world _ eq_refl)).
Defined.

(** X12.  [make_ass_file_subtitle] has no fallback for the metadata: when
    [get_info] fails its error is raised and nothing else happens.  And
    whatever fails before the temporary file is opened (the metadata, the
    lookup of the name, the request) leaves every file as it was. *)
Theorem subtitle_writes_nothing_before_the_download
    (E : Collaborators) (obj : Video) (out name : string)
    (credential : option Credential) (w : World) (evs : list Event) :
  let run := make_ass_file_subtitle E obj out name credential w in
  (∀ e, get_info obj = Raise e → run = (Raise e, logged w [EvGetInfo]))
  ∧ (EvOpenW (subtitle_temp E) ∉ evs →
     log run.2 = log w ++ evs →
     fs run.2 = fs w ∧ ∃ e, run.1 = Raise e).
Proof.
  intros run. unfold run. rewrite make_ass_file_subtitle_run. split.
  - by intros e ->.
  - intros Hno. destruct (get_info obj) as [info|e].
    + destruct (first_match name (subtitle_list info))
        as [Hnone|(pre & s & post & Hl & Hpre & Hs)].
      * rewrite subtitle_loop_no_match by done. intros _. split; [done|by eexists].
      * rewrite Hl, subtitle_loop_first_match, download_and_convert_run by done.
        destruct (request E "GET" (subtitle_url s)) as [content|e];
          [|intros _; split; [done|by eexists]].
        destruct (export_ass_from_json_logs E (λ _, True)
                    (subtitle_temp E) out I I I
                    {| fs := <[subtitle_temp E := content]> (fs (logged w [EvGetInfo]));
                       log := log (logged w [EvGetInfo])
                              ++ [EvRequest "GET" (subtitle_url s);
                                  EvOpenW (subtitle_temp E)] |})
          as (evs' & -> & _).
        cbn [log logged]. rewrite <- !app_assoc. cbn [app].
        intros <-%app_inv_head. exfalso. apply Hno. set_solver.
    + intros _. split; [done|by eexists].
Qed.

Lemma subtitle_writes_nothing_before_the_download_witness :
  get_info video_without_info
    = Raise {| exn_class := "TimeoutError"; exn_msg := "" |}
  ∧ make_ass_file_subtitle sample_collaborators video_without_info
      "out.ass" "English" None sample_world
    = (Raise {| exn_class := "TimeoutError"; exn_msg := "" |},
       logged sample_world [EvGetInfo]).
Proof.
  split; [reflexivity|].
  exact (proj1 (subtitle_writes_nothing_before_the_download sample_collaborators
                  video_without_info "out.ass" "English" None sample_world [])
           _ eq_refl).
Defined.

(** X13.  [export_ass_from_srt] is the second stage of
    [export_ass_from_json]: given the SRT text that [json2srt] makes of
    the JSON file, the two return or raise the same, and when they return
    and the output path contains [.ass] they leave the same ASS file; and
    [export_ass_from_srt] makes one call, [srt2ass] with the style
    [movie], and never removes a file. *)
Theorem export_ass_from_srt_is_the_second_stage
    (E : Collaborators) (json_file srt_file out json srt : string)
    (w ws : World) :
  fs w !! json_file = Some json →
  json2srt_text E json = Ok srt →
  fs ws !! srt_file = Some srt →
  let from_json := export_ass_from_json E json_file out w in
  let from_srt := export_ass_from_srt E srt_file out ws in
  from_json.1 = from_srt.1
  ∧ (from_srt.1 = Ok tt → contains ".ass" out = true →
     is_Some (fs from_srt.2 !! out)
     ∧ fs from_json.2 !! out = fs from_srt.2 !! out)
  ∧ log from_srt.2 = log ws ++ [EvSrt2ass srt_file out "movie"].
Proof.
  intros Hjson Hsrt Hfile from_json from_srt. unfold from_json, from_srt.
  unfold export_ass_from_srt, export_ass_from_json.
  unfold mbind, M_bind. rewrite json2srt_run, Hjson, Hsrt.
  rewrite !srt2ass_run. cbn [fs log]. rewrite lookup_insert_eq, Hfile.
  destruct (srt2ass_text E "movie" srt) as [ass|e].
  - rewrite os_remove_run. cbn [fs log].
    destruct (_ !! replace ".ass" ".srt" out) eqn:Hlook.
    + repeat split; try done.
      * cbn [snd fs]. rewrite lookup_insert_eq. eauto.
      * cbn [snd fs]. rewrite lookup_delete_ne, !lookup_insert_eq; [done|].
        by apply replace_present.
    + exfalso. destruct (decide (out = replace ".ass" ".srt" out)) as [Heq|Hne].
      * rewrite <- Heq, lookup_insert_eq in Hlook. done.
      * rewrite lookup_insert_ne, lookup_insert_eq in Hlook by done. done.
  - repeat split; try done.
Qed.

Lemma export_ass_from_srt_is_the_second_stage_witness :
  (export_ass_from_json sample_collaborators "sub.json" "out.ass" sample_world).1
  = (export_ass_from_srt sample_collaborators "sub.srt" "out.ass"
       {| fs := {[ "sub.srt" := "1 00:00:00,000 --> 00:00:02,000 {body: []}" ]};
          log := [] |}).1.
Proof.
  apply (export_ass_from_srt_is_the_second_stage sample_collaborators
           "sub.json" "sub.srt" "out.ass" "{body: []}"
           "1 00:00:00,000 --> 00:00:02,000 {body: []}" sample_world);
    reflexivity.
Defined.
